(** * Subtask set-up of the AutoMech command line: a shallow embedding

    The development follows [src/automech/cli/_subtasks_setup.py] (and the
    consumer of its output, [_subtasks_run_adhoc.py]).  Python strings are
    modelled by [string] (code points below 256), Python integers by [Z],
    dictionaries by [gmap], exceptions by the [result] monad, and the calls
    on the file system by a trace of events.  The external libraries the
    module relies on are modelled by the part of their behaviour that the
    module uses: the pyparsing elements in [PP], PyYAML's safe representer
    and constructor in [Yaml], pathlib's pure POSIX paths in [Pathlib]. *)

From Stdlib Require Import ZArith Ascii String List Lia DecimalString DecimalPos.
From stdpp Require Import gmap strings list fin_maps.

Local Open Scope Z_scope.

(** ** Exceptions *)

Inductive exn : Type :=
| ParseException
| IndexError
| ValueError
| AttributeError
| AssertionError
| TypeError
| KeyError
| OSError.

Inductive result (A : Type) : Type :=
| Ok (a : A)
| Raise (e : exn).

Arguments Ok {A} a.
Arguments Raise {A} e.

Definition rbind {A B : Type} (r : result A) (k : A -> result B) : result B :=
  match r with
  | Ok a => k a
  | Raise e => Raise e
  end.

(** The exceptions propagate through stdpp's monadic notation
    [x ← c; k]. *)
#[global] Instance result_bind : MBind result :=
  fun A B (k : A -> result B) (r : result A) => rbind r k.
#[global] Instance result_ret : MRet result := @Ok.

Fixpoint rmap {A B : Type} (f : A -> result B) (l : list A) : result (list B) :=
  match l with
  | [] => Ok []
  | x :: l' =>
      match f x with
      | Ok y => match rmap f l' with
                | Ok ys => Ok (y :: ys)
                | Raise e => Raise e
                end
      | Raise e => Raise e
      end
  end.

Definition of_option {A : Type} (e : exn) (o : option A) : result A :=
  match o with
  | Some a => Ok a
  | None => Raise e
  end.

(** ** Python built-ins on strings *)

Module Py.

Definition code (c : ascii) : nat := nat_of_ascii c.

(** [str.isspace] on one character (code points below 256). *)
Definition isspace (c : ascii) : bool :=
  let n := code c in
  ((9 <=? n) && (n <=? 13) || (28 <=? n) && (n <=? 32)
   || (n =? 133) || (n =? 160))%nat.

(** The line boundaries of [str.splitlines] (code points below 256). *)
Definition islinebreak (c : ascii) : bool :=
  let n := code c in
  ((10 <=? n) && (n <=? 13) || (28 <=? n) && (n <=? 30) || (n =? 133))%nat.

Definition isdigit (c : ascii) : bool :=
  let n := code c in ((48 <=? n) && (n <=? 57))%nat.

Definition digit_val (c : ascii) : Z := Z.of_nat (code c) - 48.

Definition lf : ascii := ascii_of_nat 10.
Definition cr : ascii := ascii_of_nat 13.
Definition tab : ascii := ascii_of_nat 9.
Definition nl : string := String lf EmptyString.

Definition startswith (s p : string) : bool := String.prefix p s.

Fixpoint lstrip (s : string) : string :=
  match s with
  | String c s' => if isspace c then lstrip s' else s
  | EmptyString => EmptyString
  end.

(** [rstrip] keeps a character when something that is not white space
    follows it. *)
Fixpoint rstrip (s : string) : string :=
  match s with
  | EmptyString => EmptyString
  | String c s' =>
      match rstrip s' with
      | EmptyString => if isspace c then EmptyString else String c EmptyString
      | r => String c r
      end
  end.

Definition strip (s : string) : string := rstrip (lstrip s).

(** [str.split()] without arguments: the maximal runs of characters that
    are not white space.  [cur] is the run being read, reversed. *)
Fixpoint split_go (s : string) (cur : list ascii) : list string :=
  let flush rest :=
    match cur with
    | [] => rest
    | _ => string_of_list_ascii (rev cur) :: rest
    end in
  match s with
  | EmptyString => flush []
  | String c s' =>
      if isspace c then flush (split_go s' []) else split_go s' (c :: cur)
  end.

Definition split (s : string) : list string := split_go s [].

(** [str.splitlines()]: a carriage return followed by a line feed is one
    boundary, and a boundary at the very end opens no further line. *)
Fixpoint splitlines_go (s : string) (cur : list ascii) : list string :=
  match s with
  | EmptyString =>
      match cur with
      | [] => []
      | _ => [string_of_list_ascii (rev cur)]
      end
  | String c s' =>
      if islinebreak c then
        string_of_list_ascii (rev cur) ::
        match s' with
        | String c' s'' =>
            if ((code c =? 13) && (code c' =? 10))%nat
            then splitlines_go s'' []
            else splitlines_go s' []
        | EmptyString => []
        end
      else splitlines_go s' (c :: cur)
  end.

Definition splitlines (s : string) : list string := splitlines_go s [].

(** [str.expandtabs()]: a tab fills up to the next multiple of eight
    columns; the column count restarts after a line feed or a carriage
    return. *)
Fixpoint expandtabs_go (s : string) (col : nat) : string :=
  match s with
  | EmptyString => EmptyString
  | String c s' =>
      if (code c =? 9)%nat then
        let n := (8 - col mod 8)%nat in
        (string_of_list_ascii (repeat " "%char n)
           +:+ expandtabs_go s' (col + n))%string
      else if ((code c =? 10) || (code c =? 13))%nat then
        String c (expandtabs_go s' 0)
      else String c (expandtabs_go s' (S col))
  end.

Definition expandtabs (s : string) : string := expandtabs_go s 0.

(** [sep.join(l)] *)
Definition join (sep : string) (l : list string) : string :=
  String.concat sep l.

(** The value of a string of decimal digits. *)
Fixpoint digits_val (s : string) (acc : Z) : Z :=
  match s with
  | EmptyString => acc
  | String c s' => digits_val s' (10 * acc + digit_val c)
  end.

(** [str(n)] for an integer. *)
Definition str_of_Z (n : Z) : string :=
  match n with
  | Z0 => "0"
  | Zpos p => NilZero.string_of_uint (Pos.to_uint p)
  | Zneg p => String "-" (NilZero.string_of_uint (Pos.to_uint p))
  end.

End Py.

(** ** The pyparsing elements used by the module

    A parser element carries the white space it skips before it matches
    ([whiteChars], [skipWhitespace]), whether its own [_parse] skips it
    ([callPreparse]), and its match function [parseImpl], from a position in
    the input to the position after the match and the token.  The combined
    elements take these settings from their parts as pyparsing does:
    [And] copies the white space of its first part, [Or] keeps the default
    white space, and the elements that enhance one expression ([Suppress],
    [Group], [SkipTo], [ZeroOrMore], [FollowedBy], [DelimitedList]) copy the
    settings of that expression. *)

Module PP.

Definition printables (c : ascii) : bool :=
  ((33 <=? Py.code c) && (Py.code c <=? 126))%nat.

Definition nums (c : ascii) : bool := Py.isdigit c.

Definition alphanums (c : ascii) : bool :=
  let n := Py.code c in
  (Py.isdigit c || (65 <=? n) && (n <=? 90) || (97 <=? n) && (n <=? 122))%nat.

Definition excluding (chars : ascii -> bool) (x : ascii) (c : ascii) : bool :=
  chars c && negb (Ascii.eqb c x).

(** [DEFAULT_WHITE_CHARS]: space, line feed, tab, carriage return. *)
Definition default_white (c : ascii) : bool :=
  let n := Py.code c in ((n =? 32) || (n =? 10) || (n =? 9) || (n =? 13))%nat.

(** The white space of [LineEnd]: the default one without the line feed. *)
Definition lineend_white (c : ascii) : bool :=
  let n := Py.code c in ((n =? 32) || (n =? 9) || (n =? 13))%nat.

Record ParserElement (A : Type) : Type := mkPE {
  whiteChars : ascii -> bool;
  skipWhitespace : bool;
  callPreparse : bool;
  parseImpl : string -> nat -> option (nat * A) }.

Arguments mkPE {A} _ _ _ _.
Arguments whiteChars {A} _ _.
Arguments skipWhitespace {A} _.
Arguments callPreparse {A} _.
Arguments parseImpl {A} _ _ _.

Fixpoint skip_white (white : ascii -> bool) (s : string) (loc fuel : nat) : nat :=
  match fuel with
  | O => loc
  | S f =>
      match String.get loc s with
      | Some c => if white c then skip_white white s (S loc) f else loc
      | None => loc
      end
  end.

Definition preParse {A} (e : ParserElement A) (s : string) (loc : nat) : nat :=
  if skipWhitespace e then skip_white (whiteChars e) s loc (String.length s)
  else loc.

Definition _parse {A} (e : ParserElement A) (callPreParse : bool)
    (s : string) (loc : nat) : option (nat * A) :=
  parseImpl e s (if callPreParse && callPreparse e then preParse e s loc else loc).

(** *** Tokens *)

Definition Word (chars : ascii -> bool) : ParserElement string :=
  mkPE default_white true true (fun s loc =>
    match String.get loc s with
    | Some c =>
        if chars c then
          let stop := skip_white chars s (S loc) (String.length s) in
          Some (stop, substring loc (stop - loc) s)
        else None
    | None => None
    end).

Definition Literal (m : string) : ParserElement string :=
  mkPE default_white true true (fun s loc =>
    if String.eqb (substring loc (String.length m) s) m
    then Some ((loc + String.length m)%nat, m) else None).

Definition keyword_chars (c : ascii) : bool :=
  alphanums c || Ascii.eqb c "_" || Ascii.eqb c "$".

Definition Keyword (m : string) : ParserElement string :=
  mkPE default_white true true (fun s loc =>
    if String.eqb (substring loc (String.length m) s) m then
      let before :=
        match loc with
        | O => true
        | S p => match String.get p s with
                 | Some c => negb (keyword_chars c)
                 | None => true
                 end
        end in
      let after :=
        match String.get (loc + String.length m) s with
        | Some c => negb (keyword_chars c)
        | None => true
        end in
      if before && after then Some ((loc + String.length m)%nat, m) else None
    else None).

(** [LineEnd] matches a line feed, or the end of the input (and then
    returns the position after the end). *)
Definition LineEnd : ParserElement unit :=
  mkPE lineend_white true true (fun s loc =>
    match String.get loc s with
    | Some c => if (Py.code c =? 10)%nat then Some (S loc, tt) else None
    | None => if (loc =? String.length s)%nat then Some (S loc, tt) else None
    end).

(** [instring[loc - 1]], where index [-1] is the last character. *)
Definition char_before (s : string) (loc : nat) : option ascii :=
  match loc with
  | O => String.get (String.length s - 1) s
  | S p => String.get p s
  end.

(** [WordEnd] skips no white space; inside the input it wants a character
    of a word before the position and none at it. *)
Definition WordEnd (wordChars : ascii -> bool) : ParserElement unit :=
  mkPE default_white false true (fun s loc =>
    match String.get loc s with
    | Some c =>
        let prev := match char_before s loc with
                    | Some p => wordChars p
                    | None => false
                    end in
        if wordChars c || negb prev then None else Some (loc, tt)
    | None => Some (loc, tt)
    end).

(** *** Combined elements *)

(** A parse action that converts the token. *)
Definition action {A B} (f : A -> B) (e : ParserElement A) : ParserElement B :=
  mkPE (whiteChars e) (skipWhitespace e) (callPreparse e) (fun s loc =>
    match parseImpl e s loc with
    | Some (loc', a) => Some (loc', f a)
    | None => None
    end).

(** The elements that enhance one expression hand the position to it
    without another white-space skip. *)
Definition enhance {A B} (f : A -> B) (e : ParserElement A) : ParserElement B :=
  mkPE (whiteChars e) (skipWhitespace e) (callPreparse e) (fun s loc =>
    match _parse e false s loc with
    | Some (loc', a) => Some (loc', f a)
    | None => None
    end).

Definition Suppress {A} (e : ParserElement A) : ParserElement unit :=
  enhance (fun _ => tt) e.

Definition Group {A} (e : ParserElement A) : ParserElement A :=
  enhance (fun a => a) e.

Definition And {A B} (e1 : ParserElement A) (e2 : ParserElement B)
  : ParserElement (A * B) :=
  mkPE (whiteChars e1) (skipWhitespace e1) true (fun s loc =>
    match _parse e1 false s loc with
    | Some (loc1, a) =>
        match _parse e2 true s loc1 with
        | Some (loc2, b) => Some (loc2, (a, b))
        | None => None
        end
    | None => None
    end).

(** [Or]: every alternative is tried at the position, and the one with the
    longest match wins (the first one among equals). *)
Fixpoint longest {A} (exprs : list (ParserElement A)) (s : string) (loc : nat)
  : option (nat * A) :=
  match exprs with
  | [] => None
  | e :: rest =>
      match _parse e true s loc, longest rest s loc with
      | Some (l1, a), Some (l2, b) =>
          if (l2 <=? l1)%nat then Some (l1, a) else Some (l2, b)
      | Some r, None => Some r
      | None, r => r
      end
  end.

Definition Or {A} (exprs : list (ParserElement A)) : ParserElement A :=
  let self_skip := forallb skipWhitespace exprs in
  mkPE default_white self_skip false (fun s loc =>
    let loc0 :=
      if forallb callPreparse exprs && self_skip
      then skip_white default_white s loc (String.length s) else loc in
    longest exprs s loc0).

Fixpoint many_go {A} (e : ParserElement A) (s : string) (loc fuel : nat)
  : nat * list A :=
  match fuel with
  | O => (loc, [])
  | S f =>
      match _parse e true s loc with
      | Some (loc', a) =>
          let '(stop, rest) := many_go e s loc' f in (stop, a :: rest)
      | None => (loc, [])
      end
  end.

Definition ZeroOrMore {A} (e : ParserElement A) : ParserElement (list A) :=
  mkPE (whiteChars e) (skipWhitespace e) (callPreparse e) (fun s loc =>
    Some (many_go e s loc (S (S (String.length s))))).

Definition OneOrMore {A} (e : ParserElement A) : ParserElement (list A) :=
  mkPE (whiteChars e) (skipWhitespace e) (callPreparse e) (fun s loc =>
    match many_go e s loc (S (S (String.length s))) with
    | (_, []) => None
    | r => Some r
    end).

(** [DelimitedList(content, delim)] is
    [content + ZeroOrMore(Suppress(delim) + content)]. *)
Definition DelimitedList {A D} (content : ParserElement A)
    (delim : ParserElement D) : ParserElement (list A) :=
  enhance (fun '(a, rest) => a :: map snd rest)
    (And content (ZeroOrMore (And (Suppress delim) content))).

Fixpoint skipto_go {A} (target : ParserElement A) (s : string)
    (tmploc fuel : nat) : option nat :=
  match fuel with
  | O => None
  | S f =>
      match _parse target false s tmploc with
      | Some _ => Some tmploc
      | None => skipto_go target s (S tmploc) f
      end
  end.

(** [SkipTo(target)] advances one character at a time until [target]
    matches, and fails when it runs off the end of the input. *)
Definition SkipTo {A} (target : ParserElement A) : ParserElement string :=
  mkPE (whiteChars target) (skipWhitespace target) (callPreparse target)
    (fun s loc =>
       match skipto_go target s loc (S (String.length s) - loc) with
       | Some t => Some (t, substring loc (t - loc) s)
       | None => None
       end).

Definition FollowedBy {A} (e : ParserElement A) : ParserElement unit :=
  mkPE (whiteChars e) (skipWhitespace e) (callPreparse e) (fun s loc =>
    match _parse e true s loc with
    | Some _ => Some (loc, tt)
    | None => None
    end).

(** [ppc.integer]: a word of digits, converted to an integer. *)
Definition integer : ParserElement Z :=
  action (fun w => Py.digits_val w 0) (Word nums).

(** [expr.parseString(s)]: tabs are expanded, the match starts at position
    0 and need not reach the end of the input. *)
Definition parseString {A} (e : ParserElement A) (s : string) : result A :=
  match _parse e true (Py.expandtabs s) 0 with
  | Some (_, a) => Ok a
  | None => Raise ParseException
  end.

End PP.

(** ** Generic functions of the module *)

(** [more_itertools.unique_everseen]: the first occurrence of every
    element, in order. *)
Fixpoint unique_everseen_go {A} `{EqDecision A} (l seen : list A) : list A :=
  match l with
  | [] => []
  | x :: l' =>
      if decide (x ∈ seen) then unique_everseen_go l' seen
      else x :: unique_everseen_go l' (x :: seen)
  end.

Definition unique_everseen {A} `{EqDecision A} (l : list A) : list A :=
  unique_everseen_go l [].

(** [range(start, stop + 1)] *)
Definition range_incl (start stop : Z) : list Z :=
  map (fun i => start + Z.of_nat i) (seq 0 (Z.to_nat (stop + 1 - start))).

Inductive index_entry : Type :=
| IdxOne (n : Z)
| IdxRange (start stop : Z).

Definition index_series_expr : PP.ParserElement (list index_entry) :=
  let dash := PP.Suppress (PP.Literal "-") in
  let entry :=
    PP.Or [ PP.action IdxOne PP.integer;
            PP.action (fun '(a, _, b) => IdxRange a b)
              (PP.Group (PP.And (PP.And PP.integer dash) PP.integer)) ] in
  let delim :=
    PP.Or [ PP.LineEnd; PP.action (fun _ => tt) (PP.Literal ",") ] in
  PP.DelimitedList entry delim.

Definition parse_index_series (inp : string) : result (list Z) :=
  res ← PP.parseString index_series_expr inp;
  Ok (unique_everseen
        (concat (map (fun r => match r with
                               | IdxOne n => [n]
                               | IdxRange start stop => range_incl start stop
                               end) res))).

(** [int(s)] on a string: white space around, an optional sign, decimal
    digits with single underscores between them. *)
Module PyInt.

Fixpoint digits_ok (s : string) (prev_digit : bool) : bool :=
  match s with
  | EmptyString => prev_digit
  | String c s' =>
      if Py.isdigit c then digits_ok s' true
      else if Ascii.eqb c "_" then prev_digit && digits_ok s' false
      else false
  end.

Fixpoint digits_val (s : string) (acc : Z) : Z :=
  match s with
  | EmptyString => acc
  | String c s' =>
      if Py.isdigit c then digits_val s' (10 * acc + Py.digit_val c)
      else digits_val s' acc
  end.

Definition int (s : string) : result Z :=
  let body sign d :=
    if digits_ok d false then Ok (sign * digits_val d 0) else Raise ValueError in
  match Py.strip s with
  | String "-" d => body (-1) d
  | String "+" d => body 1 d
  | d => body 1 d
  end.

End PyInt.

(** ** Dictionaries that keep the insertion order

    The file dictionary is iterated when the input files are written, so its
    order is kept: [od_set] replaces the value of a key in place and appends
    a new key at the end. *)

Fixpoint od_get {V} (k : string) (d : list (string * V)) : option V :=
  match d with
  | [] => None
  | (k', v) :: d' => if String.eqb k k' then Some v else od_get k d'
  end.

Fixpoint od_set {V} (k : string) (v : V) (d : list (string * V))
  : list (string * V) :=
  match d with
  | [] => [(k, v)]
  | (k', v') :: d' =>
      if String.eqb k k' then (k, v) :: d' else (k', v') :: od_set k v d'
  end.

(** ** The module's constants and records *)

Definition SAMP_TASKS : list string := ["conf_samp"%string].

Inductive SubtaskKey : Type :=
| KeyStr (s : string)      (* the key for all species and reactions *)
| KeyInt (n : Z)           (* a species index *)
| KeyTuple (l : list Z)    (* a (PES index, channel index) tuple *)
| KeyList (l : list Z).    (* a list, as a YAML sequence is read back *)

#[global] Instance SubtaskKey_eq_dec : EqDecision SubtaskKey.
Proof. solve_decision. Defined.

Record Task : Type := mkTask {
  name : string;
  line : string;
  mem : option Z;
  nprocs : option Z;
  subtask_keys : list SubtaskKey;
  subtask_nworkers : list Z }.

(** ** pathlib's pure POSIX paths *)

Module Pathlib.

Record Path : Type := mkPath { root : string; parts : list string }.

#[global] Instance Path_eq_dec : EqDecision Path.
Proof. solve_decision. Defined.

(** [s.split("/")] *)
Fixpoint split_slash (s : string) (cur : list ascii) : list string :=
  match s with
  | EmptyString => [string_of_list_ascii (rev cur)]
  | String c s' =>
      if Ascii.eqb c "/" then string_of_list_ascii (rev cur) :: split_slash s' []
      else split_slash s' (c :: cur)
  end.

Definition keep_part (x : string) : bool :=
  negb (String.eqb x "") && negb (String.eqb x ".").

(** [PurePosixPath(s)]: exactly two leading slashes are a root of their
    own; empty parts and [.] parts are dropped. *)
Definition parse (s : string) : Path :=
  let r :=
    if String.prefix "///" s then "/"
    else if String.prefix "//" s then "//"
    else if String.prefix "/" s then "/"
    else "" in
  mkPath r (List.filter keep_part (split_slash s [])).

(** [p / s]: a rooted [s] replaces [p]. *)
Definition div (p : Path) (s : string) : Path :=
  let q := parse s in
  if String.eqb (root q) "" then mkPath (root p) (parts p ++ parts q) else q.

(** [str(p)] *)
Definition str (p : Path) : string :=
  match root p, parts p with
  | EmptyString, [] => "."
  | r, ps => (r +:+ String.concat "/" ps)%string
  end.

End Pathlib.

(** ** PyYAML's safe representer and constructor

    [safe_dump] represents a Python value as a node and emits it;
    [safe_load] parses the text and constructs a value from the node.  The
    model keeps the two steps on nodes and takes the text in between as
    faithful.  The safe representer has no node for a tuple: it represents
    a tuple as a sequence, like a list. *)

Module Yaml.

#[local] Set Warnings "-register-all".

Inductive pyval : Type :=
| PNone
| PInt (n : Z)
| PStr (s : string)
| PList (l : list pyval)
| PTuple (l : list pyval)
| PDict (d : list (string * pyval)).

Inductive node : Type :=
| Null
| Int (n : Z)
| Str (s : string)
| Seq (l : list node)
| Mapping (d : list (string * node)).

(** The representer sorts the keys of a dictionary. *)
Fixpoint insert_sorted {V} (k : string) (v : V) (d : list (string * V))
  : list (string * V) :=
  match d with
  | [] => [(k, v)]
  | (k', v') :: d' =>
      if String.leb k k' then (k, v) :: d else (k', v') :: insert_sorted k v d'
  end.

Definition sort_keys {V} (d : list (string * V)) : list (string * V) :=
  foldr (fun kv acc => insert_sorted kv.1 kv.2 acc) [] d.

Fixpoint represent (v : pyval) : node :=
  match v with
  | PNone => Null
  | PInt n => Int n
  | PStr s => Str s
  | PList l => Seq (map represent l)
  | PTuple l => Seq (map represent l)
  | PDict d => Mapping (sort_keys (map (fun kv => (fst kv, represent (snd kv))) d))
  end.

Fixpoint construct (n : node) : pyval :=
  match n with
  | Null => PNone
  | Int n => PInt n
  | Str s => PStr s
  | Seq l => PList (map construct l)
  | Mapping d => PDict (map (fun kv => (fst kv, construct (snd kv))) d)
  end.

End Yaml.

(** ** The calls on the outside world

    A run of the set-up is the list of the calls it makes, in order, and its
    result; the calls made before an exception stay in the list. *)

Inductive cell : Type :=
| CName (task_name : string)
| CPath (p : Pathlib.Path).

Inductive event : Type :=
| Print (msg : string)
| Mkdir (p : Pathlib.Path) (parents : bool)       (* exist_ok=True *)
| WriteText (p : Pathlib.Path) (text : string)
| WriteYaml (p : Pathlib.Path) (doc : Yaml.node)  (* write_text(yaml.safe_dump(..)) *)
| ToCsv (p : Pathlib.Path) (rows : list (list (SubtaskKey * cell))).

Definition IO (A : Type) : Type := (list event * result A)%type.

Definition io_bind {A B} (m : IO A) (k : A -> IO B) : IO B :=
  match m with
  | (t, Ok a) => let '(t', r) := k a in (t ++ t', r)
  | (t, Raise e) => (t, Raise e)
  end.

#[global] Instance IO_bind : MBind IO := fun A B k m => io_bind m k.
#[global] Instance IO_ret : MRet IO := fun A a => ([], Ok a).

Definition emit (e : event) : IO unit := ([e], Ok tt).
Definition lift {A} (r : result A) : IO A := ([], r).

(** ** Generic string formatting functions *)

(** [re.sub(r"#.*$", "", inp, flags=re.M)]: a comment runs from [#] to the
    end of its line. *)
Fixpoint without_comments_go (s : string) (in_comment : bool) : string :=
  match s with
  | EmptyString => EmptyString
  | String c s' =>
      if (Py.code c =? 10)%nat then String c (without_comments_go s' false)
      else if in_comment then without_comments_go s' true
      else if Ascii.eqb c "#" then without_comments_go s' true
      else String c (without_comments_go s' false)
  end.

Definition without_comments (inp : string) : string :=
  without_comments_go inp false.

(** [re.sub(r"^\ *", "", inp, flags=re.MULTILINE)]: the spaces at the start
    of the input and after every line feed are removed. *)
Fixpoint dedent_go (s : string) (at_start : bool) : string :=
  match s with
  | EmptyString => EmptyString
  | String c s' =>
      if at_start && Ascii.eqb c " " then dedent_go s' true
      else String c (dedent_go s' ((Py.code c =? 10)%nat))
  end.

(** [textwrap.indent(text, prefix)]: the lines of [text.splitlines(True)]
    that are not white space only get the prefix.  [cur] is the line being
    read, reversed; [blank] tells whether it is white space only. *)
Fixpoint indent_go (prefix : string) (s : string) (cur : list ascii)
    (blank : bool) : string :=
  let flush :=
    let l := string_of_list_ascii (rev cur) in
    if blank then l else (prefix +:+ l)%string in
  match s with
  | EmptyString => match cur with [] => EmptyString | _ => flush end
  | String c s' =>
      if Py.islinebreak c then
        match s' with
        | String c' s'' =>
            if ((Py.code c =? 13) && (Py.code c' =? 10))%nat
            then (flush +:+ String c (String c' (indent_go prefix s'' [] true)))%string
            else (flush +:+ String c (indent_go prefix s' [] true))%string
        | EmptyString => (flush +:+ String c EmptyString)%string
        end
      else indent_go prefix s' (c :: cur) (blank && Py.isspace c)
  end.

Definition format_block (inp : string) : string :=
  indent_go "    " (dedent_go inp true) [] true.

(** ** Parse task information *)

Definition parse_task_name (task_line : string) : result string :=
  task_name ← of_option IndexError (Py.split task_line !! 0%nat);
  if bool_decide (task_name ∈ ["spc"; "ts"]%string)
  then of_option IndexError (Py.split task_line !! 1%nat)
  else Ok task_name.

(** [dict(pairs)]: a later pair overwrites an earlier one with its key. *)
Definition dict_of_pairs (pairs : list (string * string)) : gmap string string :=
  foldl (fun d kv => <[kv.1 := kv.2]> d) ∅ pairs.

Definition field_pair (t : string * unit * string) : string * string :=
  (t.1.1, t.2).

(** [Suppress(...) + DelimitedList(field, delim=WordEnd())]: the input is
    skipped up to the first position where a list of fields starts. *)
Definition task_fields_expr : PP.ParserElement (unit * list (string * string)) :=
  let word := PP.Word (PP.excluding PP.printables "=") in
  let eq := PP.Suppress (PP.Literal "=") in
  let field := PP.action field_pair (PP.Group (PP.And (PP.And word eq) word)) in
  let fields := PP.DelimitedList field (PP.WordEnd PP.printables) in
  PP.And (PP.Suppress (PP.SkipTo fields)) fields.

Definition parse_task_fields (task_line : string) : result (gmap string string) :=
  res ← PP.parseString task_fields_expr task_line;
  Ok (dict_of_pairs res.2).

(** ** Functions acting on theory.dat data *)

(** [Suppress(... + start) + SkipTo(end)(key) + Suppress(end)] *)
Definition block_expression (keyword : string) : PP.ParserElement string :=
  let start := PP.Keyword keyword in
  let end_ := PP.And (PP.Keyword "end") (PP.Keyword keyword) in
  PP.action (fun t => t.1.2)
    (PP.And (PP.And (PP.Suppress (PP.And (PP.SkipTo start) start))
                    (PP.SkipTo end_))
            (PP.Suppress end_)).

Definition theory_block_expr
  : PP.ParserElement (string * list (string * string)) :=
  let word := PP.Word PP.printables in
  let eq := PP.Suppress (PP.Literal "=") in
  let field := PP.action field_pair (PP.Group (PP.And (PP.And word eq) word)) in
  PP.And word (PP.DelimitedList field PP.LineEnd).

Definition parse_theory_dat (theory_dat : string)
  : result (gmap string (gmap string string)) :=
  let theory_dat := without_comments theory_dat in
  blocks ← PP.parseString (PP.OneOrMore (block_expression "level")) theory_dat;
  parsed ← rmap (PP.parseString theory_block_expr) blocks;
  Ok (foldl (fun d res => <[res.1 := dict_of_pairs res.2]> d) ∅ parsed).

(** ** The sample count

    [sample_count t] is the body of [sample_count_from_inchi] once the
    number [t] of torsional degrees of freedom of the molecule is known. *)

Definition sample_count (ntors : nat) (param_a param_b param_c param_d : Z) : Z :=
  if (ntors =? 0)%nat then 1
  else Z.min (param_a + param_b * param_c ^ Z.of_nat ntors) param_d.

Section Resolver.

(** What the module takes from outside: Python's [int(float(s))], the
    [inchi] column of the table that pandas reads from [species.csv] (the
    argument is [file_dct.get("species.csv")]), and automol's count of the
    rotational bonds of a molecule, CH rotors excluded. *)
Variable int_float : string -> result Z.
Variable species_inchi : option string -> result (list string).
Variable ntors_of : string -> nat.

Definition sample_count_from_inchi (chi : string)
    (param_a param_b param_c param_d : Z) : Z :=
  sample_count (ntors_of chi) param_a param_b param_c param_d.

(** [theory_dct.get(runlvl).get(key)], read through [float] and [int]. *)
Definition theory_value (file_dct : list (string * string))
    (runlvl key : string) : result Z :=
  theory_dat ← of_option TypeError (od_get "theory.dat" file_dct);
  theory_dct ← parse_theory_dat theory_dat;
  level ← of_option AttributeError (theory_dct !! runlvl);
  val ← of_option TypeError (level !! key);
  int_float val.

Definition parse_task_memory (task_line : string)
    (file_dct : list (string * string)) : result (option Z) :=
  field_dct ← parse_task_fields task_line;
  match field_dct !! "runlvl" with
  | Some runlvl => m ← theory_value file_dct runlvl "mem"; Ok (Some m)
  | None => Ok None
  end.

Definition parse_task_nprocs (task_line : string)
    (file_dct : list (string * string)) : result (option Z) :=
  field_dct ← parse_task_fields task_line;
  nprocs ← match field_dct !! "nprocs" with
            | Some v => n ← int_float v; Ok (Some n)
            | None => Ok None
            end;
  match field_dct !! "runlvl" with
  | Some runlvl => n ← theory_value file_dct runlvl "nprocs"; Ok (Some n)
  | None => Ok nprocs
  end.

(** [s[1:]] *)
Definition tail_str (s : string) : string :=
  match s with
  | EmptyString => EmptyString
  | String _ s' => s'
  end.

Definition parse_subtasks_nworkers (task_line : string)
    (file_dct : list (string * string)) (nsub : nat) : result (list Z) :=
  let nworkers_lst := repeat 1 nsub in
  if Py.startswith task_line "spc" then
    task_name ← parse_task_name task_line;
    field_dct ← parse_task_fields task_line;
    if bool_decide (task_name ∈ SAMP_TASKS)
       || Py.startswith (default ""%string (field_dct !! "cnf_range")) "n"
    then
      nmax ← PyInt.int (tail_str (default "n100"%string (field_dct !! "cnf_range")));
      inchis ← species_inchi (od_get "species.csv" file_dct);
      let nsamp_lst :=
        map (fun chi => sample_count_from_inchi chi 12 1 3 nmax) inchis in
      Ok (map (fun n => Z.max (n - 1) 1) nsamp_lst)
    else Ok nworkers_lst
  else Ok nworkers_lst.

(** ** Functions acting on run.dat data *)

Definition pes_expr : PP.ParserElement (list (Z * string)) :=
  let colon := PP.Suppress (PP.Literal ":") in
  let before_line_end := PP.FollowedBy PP.LineEnd in
  let entry :=
    PP.action (fun t : Z * unit * string => (t.1.1, t.2))
      (PP.Group (PP.And (PP.And PP.integer colon) (PP.SkipTo before_line_end))) in
  PP.DelimitedList entry PP.LineEnd.

(** The function returns [None] for a subtask type other than [None],
    ["spc"] and ["pes"]. *)
Definition subtask_keys_from_run_dict (run_dct : gmap string string)
    (subtask_type : option string) (all_key : string)
  : result (option (list SubtaskKey)) :=
  match subtask_type with
  | None => Ok (Some [KeyStr all_key])
  | Some ty =>
      if String.eqb ty "spc" then
        spc_block ← of_option AttributeError (run_dct !! "spc");
        idxs ← parse_index_series spc_block;
        Ok (Some (map KeyInt idxs))
      else if String.eqb ty "pes" then
        pes_block ← of_option AttributeError (run_dct !! "pes");
        entries ← PP.parseString pes_expr pes_block;
        keys ← rmap (fun res : Z * string =>
                       cidxs ← parse_index_series res.2;
                       Ok (map (fun cidx => KeyTuple [res.1; cidx]) cidxs))
                    entries;
        Ok (Some (unique_everseen (concat keys)))
      else Ok None
  end.

Definition task_lines_from_run_dict (run_dct : gmap string string)
    (task_type : string) (subtask_type : option string) : result (list string) :=
  block ← of_option AttributeError (run_dct !! task_type);
  let lines := map Py.strip (Py.splitlines block) in
  if String.eqb task_type "els" then
    if bool_decide (subtask_type ∈ [Some "spc"; Some "pes"]%string) then
      let start_key :=
        if bool_decide (subtask_type = Some "pes"%string) then "ts" else "spc" in
      Ok (filter (fun l => Is_true (Py.startswith l start_key)) lines)
    else Raise AssertionError
  else Ok lines.

Definition determine_task_list (run_dct : gmap string string)
    (file_dct : list (string * string)) (task_type : string)
    (key_type : option string) (all_key : string) : result (list Task) :=
  keys ← subtask_keys_from_run_dict run_dct key_type all_key;
  task_lines ← task_lines_from_run_dict run_dct task_type key_type;
  rmap (fun task_line =>
          task_name ← parse_task_name task_line;
          task_mem ← parse_task_memory task_line file_dct;
          task_nprocs ← parse_task_nprocs task_line file_dct;
          keys ← of_option TypeError keys;
          nworkers ← parse_subtasks_nworkers task_line file_dct (length keys);
          Ok (mkTask task_name task_line task_mem task_nprocs keys nworkers))
       task_lines.

(** [form_run_dat]: the blocks that are present, in a fixed order. *)
Definition form_run_dat (run_dct : gmap string string) : string :=
  let keys := ["input"; "spc"; "pes"; "els"; "thermo"; "kin"]%string in
  foldl (fun run_dat key =>
           match run_dct !! key with
           | Some block =>
               (run_dat +:+ key +:+ Py.nl +:+ format_block block +:+ Py.nl
                  +:+ "end " +:+ key +:+ Py.nl +:+ Py.nl)%string
           | None => run_dat
           end) ""%string keys.

Definition parse_run_dat (run_dat : string) : result (gmap string string) :=
  let run_dat := without_comments run_dat in
  let _parse_block keyword :=
    content ← PP.parseString (block_expression keyword) run_dat;
    Ok (format_block content) in
  b_input ← _parse_block "input"%string;
  b_pes ← _parse_block "pes"%string;
  b_spc ← _parse_block "spc"%string;
  b_els ← _parse_block "els"%string;
  b_thermo ← _parse_block "thermo"%string;
  b_kin ← _parse_block "kin"%string;
  Ok (<["kin" := b_kin]> (<["thermo" := b_thermo]> (<["els" := b_els]>
        (<["spc" := b_spc]> (<["pes" := b_pes]> (<["input" := b_input]> ∅)))))).

(** [Suppress(... + Literal(key_prefix) + Literal("=")) + word("path")] *)
Definition _extract_path (run_dct : gmap string string) (key : string)
  : result string :=
  inp_block ← of_option TypeError (run_dct !! "input");
  let inp_block := without_comments inp_block in
  let word := PP.Word (PP.excluding PP.printables "=") in
  let prefix := PP.Literal (key +:+ "_prefix") in
  let field :=
    PP.Suppress (PP.And (PP.And (PP.SkipTo prefix) prefix) (PP.Literal "=")) in
  res ← PP.parseString (PP.And field word) inp_block;
  Ok res.2.

(** The result is the pair (save path, run path). *)
Definition filesystem_paths_from_run_dict (run_dct : gmap string string)
    (save_path run_path : option string) : result (string * string) :=
  save_path ← match save_path with
               | None => _extract_path run_dct "save"
               | Some p => Ok p
               end;
  run_path ← match run_path with
              | None => _extract_path run_dct "run"
              | Some p => Ok p
              end;
  Ok (save_path, run_path).

(** ** Task read/write *)

Definition key_value (k : SubtaskKey) : Yaml.pyval :=
  match k with
  | KeyStr s => Yaml.PStr s
  | KeyInt n => Yaml.PInt n
  | KeyTuple l => Yaml.PTuple (map Yaml.PInt l)
  | KeyList l => Yaml.PList (map Yaml.PInt l)
  end.

Definition opt_value (o : option Z) : Yaml.pyval :=
  match o with
  | Some n => Yaml.PInt n
  | None => Yaml.PNone
  end.

(** [dataclasses.asdict]: lists stay lists and tuples stay tuples. *)
Definition asdict (t : Task) : Yaml.pyval :=
  Yaml.PDict
    [ ("name", Yaml.PStr (name t));
      ("line", Yaml.PStr (line t));
      ("mem", opt_value (mem t));
      ("nprocs", opt_value (nprocs t));
      ("subtask_keys", Yaml.PList (map key_value (subtask_keys t)));
      ("subtask_nworkers", Yaml.PList (map Yaml.PInt (subtask_nworkers t))) ]%string.

Definition write_task_list (yaml_tasks : list Task) (path : Pathlib.Path)
  : IO unit :=
  emit (WriteYaml path (Yaml.represent (Yaml.PList (map asdict yaml_tasks)))).

(** The values that the fields of [Task] hold.  A value of another type
    would be stored by Python as it is; it has no place in the record and
    is reported as a [TypeError] here. *)
Definition to_str (v : Yaml.pyval) : result string :=
  match v with Yaml.PStr s => Ok s | _ => Raise TypeError end.

Definition to_int (v : Yaml.pyval) : result Z :=
  match v with Yaml.PInt n => Ok n | _ => Raise TypeError end.

Definition to_opt_int (v : Yaml.pyval) : result (option Z) :=
  match v with
  | Yaml.PInt n => Ok (Some n)
  | Yaml.PNone => Ok None
  | _ => Raise TypeError
  end.

Definition to_key (v : Yaml.pyval) : result SubtaskKey :=
  match v with
  | Yaml.PStr s => Ok (KeyStr s)
  | Yaml.PInt n => Ok (KeyInt n)
  | Yaml.PTuple l => l' ← rmap to_int l; Ok (KeyTuple l')
  | Yaml.PList l => l' ← rmap to_int l; Ok (KeyList l')
  | _ => Raise TypeError
  end.

Definition to_list {A} (f : Yaml.pyval -> result A) (v : Yaml.pyval)
  : result (list A) :=
  match v with Yaml.PList l => rmap f l | _ => Raise TypeError end.

Definition task_fields : list string :=
  ["name"; "line"; "mem"; "nprocs"; "subtask_keys"; "subtask_nworkers"]%string.

(** [Task] called with the entries of [d] as keyword arguments: the keys of
    [d] have to be the six fields. *)
Definition task_of_dict (v : Yaml.pyval) : result Task :=
  match v with
  | Yaml.PDict d =>
      if forallb (fun kv : string * Yaml.pyval =>
                    bool_decide (kv.1 ∈ task_fields)) d then
        let field {A} (conv : Yaml.pyval -> result A) (k : string) : result A :=
          x ← of_option TypeError (od_get k d); conv x in
        f_name ← field to_str "name"%string;
        f_line ← field to_str "line"%string;
        f_mem ← field to_opt_int "mem"%string;
        f_nprocs ← field to_opt_int "nprocs"%string;
        f_keys ← field (to_list to_key) "subtask_keys"%string;
        f_nworkers ← field (to_list to_int) "subtask_nworkers"%string;
        Ok (mkTask f_name f_line f_mem f_nprocs f_keys f_nworkers)
      else Raise TypeError
  | _ => Raise TypeError
  end.

(** [read_task_list], from the document stored at the path. *)
Definition read_task_list (doc : Yaml.node) : result (list Task) :=
  match Yaml.construct doc with
  | Yaml.PList yaml_tasks => rmap task_of_dict yaml_tasks
  | _ => Raise TypeError
  end.

(** ** Functions acting on the run directory as a whole *)

(** The outside world: the text of a file, and the current directory. *)
Variable read_text : Pathlib.Path -> result string.
Variable getcwd : string.

Definition read_input_files (run_dir : Pathlib.Path)
  : result (list (string * string)) :=
  let inp_dir := Pathlib.div run_dir "inp" in
  f_run ← read_text (Pathlib.div inp_dir "run.dat");
  f_theory ← read_text (Pathlib.div inp_dir "theory.dat");
  f_models ← read_text (Pathlib.div inp_dir "models.dat");
  f_mech ← read_text (Pathlib.div inp_dir "mechanism.dat");
  f_species ← read_text (Pathlib.div inp_dir "species.csv");
  Ok [ ("run.dat", f_run); ("theory.dat", f_theory); ("models.dat", f_models);
       ("mechanism.dat", f_mech); ("species.csv", f_species) ]%string.

Definition write_input_files (run_dir : Pathlib.Path)
    (file_dct : list (string * string)) : IO unit :=
  let inp_dir := Pathlib.div run_dir "inp" in
  (Mkdir inp_dir false
     :: map (fun kv : string * string =>
               WriteText (Pathlib.div inp_dir kv.1) kv.2) file_dct,
   Ok tt).

(** ** Setting up a group of subtasks *)

Definition SUBTASK_DIR : string := "subtasks".
Definition INFO_FILE : string := "info.yaml".

Definition DEFAULT_GROUPS : list (string * option string) :=
  [ ("els", Some "spc"); ("els", Some "pes"); ("thermo", Some "spc");
    ("kin", None) ]%string.

(** ["{:02d}".format(n)] *)
Definition id_str_ (n : Z) : string :=
  let s := Py.str_of_Z n in
  if (String.length s <? 2)%nat then ("0" +:+ s)%string else s.

Definition _subtask_directory (key : SubtaskKey) : result string :=
  match key with
  | KeyTuple l => Ok (Py.join "_" (map id_str_ l))
  | KeyInt n => Ok (id_str_ n)
  | KeyStr s => Ok s
  | KeyList _ => Raise AssertionError
  end.

Definition _subtask_block (key : SubtaskKey) : result string :=
  match key with
  | KeyTuple [pes_idx; chn_idx] =>
      Ok (Py.str_of_Z pes_idx +:+ ": " +:+ Py.str_of_Z chn_idx)%string
  | KeyInt n => Ok (Py.str_of_Z n)
  | _ => Raise AssertionError
  end.

(** [row_dct[key] = value] *)
Fixpoint row_set (key : SubtaskKey) (value : cell)
    (row_dct : list (SubtaskKey * cell)) : list (SubtaskKey * cell) :=
  match row_dct with
  | [] => [(key, value)]
  | (k, v) :: rest =>
      if decide (k = key) then (key, value) :: rest
      else (k, v) :: row_set key value rest
  end.

Fixpoint row_get (key : SubtaskKey) (row_dct : list (SubtaskKey * cell))
  : option cell :=
  match row_dct with
  | [] => None
  | (k, v) :: rest => if decide (k = key) then Some v else row_get key rest
  end.

(** The path of the directory of a task, and of one of its subtasks. *)
Definition task_directory (out_path : Pathlib.Path) (group_id : string)
    (task_key : nat) (task_name : string) : Pathlib.Path :=
  Pathlib.div out_path
    (group_id +:+ "_" +:+ id_str_ (Z.of_nat task_key) +:+ "_" +:+ task_name)%string.

(** The loop over the subtask keys of one task. *)
Fixpoint subtask_loop (task_path : Pathlib.Path)
    (task_run_dct : gmap string string) (file_dct : list (string * string))
    (key_type : option string) (all_key : string)
    (keys : list SubtaskKey) (row_dct : list (SubtaskKey * cell))
  : IO (list (SubtaskKey * cell)) :=
  match keys with
  | [] => mret row_dct
  | key :: keys' =>
      subtask_dir ← lift (_subtask_directory key);
      let subtask_path := Pathlib.div task_path subtask_dir in
      _ ← emit (Mkdir subtask_path true);
      subtask_run_dct ←
        lift (if decide (key = KeyStr all_key) then Ok task_run_dct
              else
                block ← _subtask_block key;
                (* with no key type the block is stored under the key
                   [None], which [form_run_dat] never reads *)
                Ok (match key_type with
                    | Some kt => <[kt := block]> task_run_dct
                    | None => task_run_dct
                    end));
      let subtask_file_dct :=
        od_set "run.dat" (form_run_dat subtask_run_dct) file_dct in
      _ ← write_input_files subtask_path subtask_file_dct;
      subtask_loop task_path task_run_dct file_dct key_type all_key keys'
        (row_set key (CPath subtask_path) row_dct)
  end.

(** The loop over the tasks; [task_key] counts them. *)
Fixpoint task_loop (run_dct : gmap string string)
    (file_dct : list (string * string)) (task_type : string)
    (key_type : option string) (all_key : string) (block_keys : list string)
    (group_id : string) (out_path : Pathlib.Path)
    (task_key : nat) (tasks : list Task)
  : IO (list (list (SubtaskKey * cell))) :=
  match tasks with
  | [] => mret []
  | task :: tasks' =>
      let row_dct := [(KeyStr "task", CName (name task))] in
      let task_path := task_directory out_path group_id task_key (name task) in
      _ ← emit (Print ("Setting up subtask directories in "
                         +:+ Pathlib.str task_path));
      let task_run_dct :=
        <[task_type := line task]>
          (filter (fun kv : string * string => kv.1 ∈ block_keys) run_dct) in
      row_dct ← subtask_loop task_path task_run_dct file_dct key_type all_key
                  (subtask_keys task) row_dct;
      rows ← task_loop run_dct file_dct task_type key_type all_key block_keys
               group_id out_path (S task_key) tasks';
      mret (row_dct :: rows)
  end.

Inductive group_id_t : Type :=
| GidStr (s : string)
| GidInt (n : Z).

Definition str_of_group_id (g : group_id_t) : string :=
  match g with
  | GidStr s => s
  | GidInt n => Py.str_of_Z n
  end.

(** The function returns a string when it gets no group identifier, and
    the table of the subtask paths otherwise. *)
Definition setup_subtask_group (run_dct : gmap string string)
    (file_dct : list (string * string)) (task_type : string)
    (key_type : option string) (group_id : option group_id_t)
    (out_path : Pathlib.Path)
  : IO (string + list (list (SubtaskKey * cell))) :=
  match group_id with
  | None =>
      let type_keys :=
        task_type :: match key_type with None => [] | Some k => [k] end in
      mret (inl (Py.join "_" type_keys))
  | Some group_id =>
      let group_id := str_of_group_id group_id in
      let block_keys :=
        ("input" :: match key_type with
                    | None => ["pes"; "spc"]
                    | Some k => [k]
                    end)%string in
      let all_key := "all"%string in
      tasks ← lift (determine_task_list run_dct file_dct task_type key_type all_key);
      let yaml_path := Pathlib.div out_path (group_id +:+ ".yaml") in
      _ ← emit (Print ("Writing task specs to " +:+ Pathlib.str yaml_path));
      _ ← write_task_list tasks yaml_path;
      row_dcts ← task_loop run_dct file_dct task_type key_type all_key
                   block_keys group_id out_path 0 tasks;
      let csv_path := Pathlib.div out_path (group_id +:+ ".csv") in
      _ ← emit (Print ("Writing subtask table to " +:+ Pathlib.str csv_path));
      _ ← emit (ToCsv csv_path row_dcts);
      _ ← emit (Print "");
      mret (inr row_dcts)
  end.

(** ** The set-up command *)

(** The run and save paths are set in the [input] block of the run
    dictionary; the result is the dictionary with the save and run paths. *)
Definition main_set_paths (run_dct : gmap string string)
    (save_path run_path : option string)
  : result (gmap string string * string * string) :=
  paths ← filesystem_paths_from_run_dict run_dct save_path run_path;
  let save_path := paths.1 in
  let run_path := paths.2 in
  Ok (<["input" := ("run_prefix = " +:+ run_path +:+ Py.nl
                      +:+ "save_prefix = " +:+ save_path)%string]> run_dct,
      save_path, run_path).

Fixpoint group_loop (run_dct : gmap string string)
    (file_dct : list (string * string)) (out_path : Pathlib.Path)
    (group_id : nat) (groups : list (string * option string)) : IO unit :=
  match groups with
  | [] => mret tt
  | (task_type, key_type) :: groups' =>
      _ ← setup_subtask_group run_dct file_dct task_type key_type
            (Some (GidInt (Z.of_nat group_id))) out_path;
      group_loop run_dct file_dct out_path (S group_id) groups'
  end.

Definition main (path out_path : string) (save_path run_path : option string)
    (groups : list (string * option string)) : IO unit :=
  let path := Pathlib.parse path in
  file_dct ← lift (read_input_files path);
  run_dat ← lift (of_option TypeError (od_get "run.dat" file_dct));
  run_dct ← lift (parse_run_dat run_dat);
  set ← lift (main_set_paths run_dct save_path run_path);
  let run_dct := set.1.1 in
  let save_path := set.1.2 in
  let run_path := set.2 in
  let out_path := Pathlib.parse out_path in
  _ ← emit (Mkdir out_path false);
  _ ← group_loop run_dct file_dct out_path 0 groups;
  let info_path := Pathlib.div out_path INFO_FILE in
  _ ← emit (Print ("Writing general information to " +:+ Pathlib.str info_path));
  let info_dct :=
    Yaml.PDict
      [ ("save_path", Yaml.PStr save_path);
        ("run_path", Yaml.PStr run_path);
        ("work_path", Yaml.PStr getcwd);
        ("group_ids",
         Yaml.PList (map (fun i => Yaml.PInt (Z.of_nat i))
                       (seq 0 (length groups)))) ]%string in
  emit (WriteYaml info_path (Yaml.represent info_dct)).

End Resolver.

(** An instance of [int_float] for the examples: a plain decimal numeral,
    with or without a fractional part, is read as its integer part. *)
Fixpoint all_digits (s : string) : bool :=
  match s with
  | EmptyString => true
  | String c s' => Py.isdigit c && all_digits s'
  end.

Fixpoint split_dot (s : string) (cur : list ascii) : string * option string :=
  match s with
  | EmptyString => (string_of_list_ascii (rev cur), None)
  | String c s' =>
      if Ascii.eqb c "." then (string_of_list_ascii (rev cur), Some s')
      else split_dot s' (c :: cur)
  end.

Definition int_float_decimal (s : string) : result Z :=
  match split_dot s [] with
  | (EmptyString, _) => Raise ValueError
  | (ip, None) => if all_digits ip then Ok (Py.digits_val ip 0) else Raise ValueError
  | (ip, Some fp) =>
      if all_digits ip && all_digits fp then Ok (Py.digits_val ip 0)
      else Raise ValueError
  end.

(** ** Inputs of the examples *)

(** The series of the docstring of [parse_index_series]. *)
Definition docstring_series : string :=
  ("1,3, 5-9  " +:+ Py.nl +:+ "  11,13-14" +:+ Py.nl +:+ "23" +:+ Py.nl
     +:+ " 27-29")%string.

Definition demo_theory_dat : string :=
  ("level lvl1" +:+ Py.nl +:+ "    mem = 4.0" +:+ Py.nl
     +:+ "    nprocs = 8" +:+ Py.nl +:+ "end level" +:+ Py.nl)%string.

(** Three species; only the second one has torsions (two of them). *)
Definition demo_species (csv : option string) : result (list string) :=
  Ok ["InChI=1S/CH4/h1H4"; "InChI=1S/C4H10O/c1-2-3-4-5/h5H,2-4H2,1H3";
      "InChI=1S/H2O/h1H2"]%string.

Definition demo_ntors (chi : string) : nat :=
  if String.eqb chi "InChI=1S/C4H10O/c1-2-3-4-5/h5H,2-4H2,1H3" then 2 else 0.

Definition demo_file_dct : list (string * string) :=
  [ ("run.dat", ""); ("theory.dat", demo_theory_dat); ("models.dat", "");
    ("mechanism.dat", ""); ("species.csv", "name,inchi") ]%string.

(** The run dictionary of [demo_run_dat] below: species 1 and 2 are
    selected, out of the three of the table. *)
Definition demo_run_dct : gmap string string :=
  <["input" := ("    run_prefix = ./run" +:+ Py.nl +:+ "    save_prefix = ./save"
                  +:+ Py.nl +:+ "    inp_mech = chemkin" +:+ Py.nl)%string]>
  (<["spc" := ("    1,2" +:+ Py.nl)%string]>
  (<["pes" := ("    1: 1-2" +:+ Py.nl)%string]>
  (<["els" := ("    spc init_geom runlvl=lvl1" +:+ Py.nl
                 +:+ "    spc conf_samp runlvl=lvl1 cnf_range=n50" +:+ Py.nl
                 +:+ "    ts conf_samp runlvl=lvl1 cnf_range=n50" +:+ Py.nl)%string]>
  (<["thermo" := ("    write_mess nprocs=2" +:+ Py.nl)%string]>
  (<["kin" := ("    run_fits kin_model=global" +:+ Py.nl)%string]> ∅))))).

(** The tasks of the group [("els", "spc")] of [demo_run_dct]. *)
Definition demo_spc_tasks : list Task :=
  [ mkTask "init_geom" "spc init_geom runlvl=lvl1" (Some 4) (Some 8)
      [KeyInt 1; KeyInt 2] [1; 1];
    mkTask "conf_samp" "spc conf_samp runlvl=lvl1 cnf_range=n50"
      (Some 4) (Some 8) [KeyInt 1; KeyInt 2] [1; 20; 1] ].

(** The second task of the group [("els", "pes")] of [demo_run_dct]. *)
Definition demo_pes_task : Task :=
  mkTask "conf_samp" "ts conf_samp runlvl=lvl1 cnf_range=n50" (Some 4) (Some 8)
    [KeyTuple [1; 1]; KeyTuple [1; 2]] [1; 1].


(** What a task is read back as from the YAML file: a tuple comes back as
    a list. *)
Definition read_back_key (k : SubtaskKey) : SubtaskKey :=
  match k with
  | KeyTuple l => KeyList l
  | _ => k
  end.

Definition read_back_task (t : Task) : Task :=
  mkTask (name t) (line t) (mem t) (nprocs t)
    (map read_back_key (subtask_keys t)) (subtask_nworkers t).

(** The [input] block that the set-up writes, and the head of a run.dat
    file that carries the block [block] as its [input] block. *)
Definition input_block (run_path save_path : string) : string :=
  ("run_prefix = " +:+ run_path +:+ Py.nl +:+ "save_prefix = " +:+ save_path)%string.




(** The input files of the examples, as [read_text] finds them. *)
Definition demo_run_dat : string :=
  ("input" +:+ Py.nl
     +:+ "    run_prefix = ./run" +:+ Py.nl
     +:+ "    save_prefix = ./save" +:+ Py.nl
     +:+ "    inp_mech = chemkin" +:+ Py.nl
     +:+ "end input" +:+ Py.nl +:+ Py.nl
     +:+ "pes" +:+ Py.nl +:+ "    1: 1-2" +:+ Py.nl +:+ "end pes" +:+ Py.nl +:+ Py.nl
     +:+ "spc" +:+ Py.nl +:+ "    1,2" +:+ Py.nl +:+ "end spc" +:+ Py.nl +:+ Py.nl
     +:+ "els" +:+ Py.nl
     +:+ "    spc init_geom runlvl=lvl1" +:+ Py.nl
     +:+ "    spc conf_samp runlvl=lvl1 cnf_range=n50" +:+ Py.nl
     +:+ "    ts conf_samp runlvl=lvl1 cnf_range=n50" +:+ Py.nl
     +:+ "end els" +:+ Py.nl +:+ Py.nl
     +:+ "thermo" +:+ Py.nl +:+ "    write_mess nprocs=2" +:+ Py.nl
     +:+ "end thermo" +:+ Py.nl +:+ Py.nl
     +:+ "kin" +:+ Py.nl +:+ "    run_fits kin_model=global" +:+ Py.nl
     +:+ "end kin" +:+ Py.nl)%string.

Definition demo_read_text (p : Pathlib.Path) : result string :=
  match last (Pathlib.parts p) with
  | Some name =>
      if String.eqb name "run.dat" then Ok demo_run_dat
      else if String.eqb name "theory.dat" then Ok demo_theory_dat
      else if String.eqb name "species.csv" then Ok "name,inchi"%string
      else Ok ""%string
  | None => Raise OSError
  end.



(** Whether a character occurs in a string. *)
Fixpoint contains (c : ascii) (s : string) : bool :=
  match s with
  | EmptyString => false
  | String c' s' => Ascii.eqb c c' || contains c s'
  end.

(** The run dictionary of [demo_run_dct] with all three species selected. *)
Definition demo_run_dct_all : gmap string string :=
  <["spc" := ("    1-3" +:+ Py.nl)%string]> demo_run_dct.

(** ** Running the subtasks of a row of the table

    The body of the loop over the rows of [_subtasks_run_adhoc.main]: [row]
    holds the cells of a row of the subtask table by column name, as pandas
    reads them from the CSV file. *)

(** [str(key)] *)
Definition str_of_key (key : SubtaskKey) : string :=
  match key with
  | KeyStr s => s
  | KeyInt n => Py.str_of_Z n
  | KeyTuple [n] => ("(" +:+ Py.str_of_Z n +:+ ",)")%string
  | KeyTuple l => ("(" +:+ Py.join ", " (map Py.str_of_Z l) +:+ ")")%string
  | KeyList l => ("[" +:+ Py.join ", " (map Py.str_of_Z l) +:+ "]")%string
  end.

(** [f"{task.mem}"] *)
Definition str_of_opt (o : option Z) : string :=
  match o with
  | Some n => Py.str_of_Z n
  | None => "None"
  end.

(** The loop over [zip(task.subtask_keys, task.subtask_nworkers,
    strict=True)]: the path of every subtask is repeated once for each of
    its workers, and every worker gets a log file name.  A path is [None]
    when the row has no column for the key. *)
Fixpoint replicate_subtasks (row : gmap string string)
    (keys : list SubtaskKey) (nworkers_lst : list Z)
    (subtask_paths : list (option string)) (subtask_logs : list string)
  : result (list (option string) * list string) :=
  match keys, nworkers_lst with
  | [], [] => Ok (subtask_paths, subtask_logs)
  | key :: keys', nworkers :: nworkers_lst' =>
      let path := row !! str_of_key key in
      replicate_subtasks row keys' nworkers_lst'
        (subtask_paths ++ repeat path (Z.to_nat nworkers))
        (subtask_logs
           ++ map (fun i => ("out" +:+ Py.str_of_Z (Z.of_nat i) +:+ ".log")%string)
                (seq 0 (Z.to_nat nworkers)))
  | _, _ => Raise ValueError
  end.

Record run_args : Type := mkRunArgs {
  arg_script : string;
  arg_work_path : string;
  arg_mem : string;
  arg_nprocs : string;
  arg_paths : string;
  arg_logs : string;
  arg_nodes : option string;
  arg_hook : string }.

(** The arguments of the run script for row number [task_key]. *)
Definition adhoc_run_args (RUN_SCRIPT work_path : string)
    (nodes activation_hook : option string) (tasks : list Task)
    (task_key : nat) (row : gmap string string) : result run_args :=
  task ← of_option IndexError (tasks !! task_key);
  task_cell ← of_option KeyError (row !! "task");
  if String.eqb task_cell (name task) then
    lists ← replicate_subtasks row (subtask_keys task) (subtask_nworkers task) [] [];
    paths ← rmap (of_option TypeError) lists.1;
    Ok (mkRunArgs RUN_SCRIPT work_path (str_of_opt (mem task))
          (str_of_opt (nprocs task)) (Py.join "," paths) (Py.join "," lists.2)
          nodes (default ""%string activation_hook))
  else Raise AssertionError.

(** The run dictionary of a subtask: the one of its task, with the block of
    the key type narrowed to the key unless the key stands for all. *)
Definition narrowed (task_run_dct : gmap string string)
    (key_type : option string) (all_key : string) (key : SubtaskKey)
    (subtask_run_dct : gmap string string) : Prop :=
  (key = KeyStr all_key /\ subtask_run_dct = task_run_dct) \/
  (key <> KeyStr all_key /\
   exists block, _subtask_block key = Ok block /\
     subtask_run_dct = match key_type with
                       | Some kt => <[kt := block]> task_run_dct
                       | None => task_run_dct
                       end).

(** The keys that the index series of a run.dat block give: an index, or a
    pair of indices, none of them negative. *)
Definition index_key (key : SubtaskKey) : Prop :=
  match key with
  | KeyInt n => 0 <= n
  | KeyTuple [p; c] => 0 <= p /\ 0 <= c
  | _ => False
  end.

(** Whether a string has a white-space character. *)
Fixpoint has_space (s : string) : bool :=
  match s with
  | EmptyString => false
  | String c s' => Py.isspace c || has_space s'
  end.

(** Every token that the parser element can return satisfies [P]. *)
Definition yields {A} (e : PP.ParserElement A) (P : A -> Prop) : Prop :=
  forall s loc loc' a, PP.parseImpl e s loc = Some (loc', a) -> P a.

(** ** The threshold of the sample-count cap

    [ceil_log c num den] is the least [t] with [num <= den * c ^ t], that is
    the ceiling of the logarithm of [num / den] to the base [c] (and 0 when
    [num <= den]).  The search stops at [num], which is beyond the
    threshold when [c >= 2]. *)
Fixpoint ceil_log_from (c num den : Z) (fuel t : nat) : nat :=
  match fuel with
  | O => t
  | S f =>
      if num <=? den * c ^ Z.of_nat t then t
      else ceil_log_from c num den f (S t)
  end.

Definition ceil_log (c num den : Z) : nat :=
  ceil_log_from c num den (Z.to_nat num) 0.

(** * Properties *)

(** ** The embedding on small inputs *)

Example split_task_line :
  Py.split "  spc  conf_samp runlvl=lvl1 " = ["spc"; "conf_samp"; "runlvl=lvl1"]%string.
Proof. reflexivity. Qed.

Example splitlines_blank_line :
  Py.splitlines ("a" +:+ Py.nl +:+ Py.nl +:+ " b " +:+ Py.nl)%string
  = ["a"; ""; " b "]%string.
Proof. reflexivity. Qed.

Example format_block_indents :
  format_block ("  run_prefix = x" +:+ Py.nl +:+ Py.nl +:+ "save_prefix = y")%string
  = ("    run_prefix = x" +:+ Py.nl +:+ Py.nl +:+ "    save_prefix = y")%string.
Proof. reflexivity. Qed.

Example path_join :
  Pathlib.str (Pathlib.div (Pathlib.div (Pathlib.parse "subtasks/") "0_01_conf_samp") "02")
  = "subtasks/0_01_conf_samp/02"%string.
Proof. reflexivity. Qed.

Example id_str_examples :
  (id_str_ 7, id_str_ 12, id_str_ 123) = ("07", "12", "123")%string.
Proof. reflexivity. Qed.

Example task_fields_of_line :
  parse_task_fields "spc conf_samp runlvl=lvl1 cnf_range=n50"
  = Ok (dict_of_pairs [("runlvl", "lvl1"); ("cnf_range", "n50")]%string).
Proof. vm_compute. reflexivity. Qed.

Example theory_table_of_demo :
  parse_theory_dat demo_theory_dat
  = Ok (<["lvl1"%string := dict_of_pairs [("mem", "4.0"); ("nprocs", "8")]%string]> ∅).
Proof. vm_compute. reflexivity. Qed.

Example run_dat_blocks :
  parse_run_dat demo_run_dat
  = Ok demo_run_dct.
Proof. vm_compute. reflexivity. Qed.

Example pes_keys_of_demo :
  subtask_keys_from_run_dict demo_run_dct (Some "pes"%string) "all"
  = Ok (Some [KeyTuple [1; 1]; KeyTuple [1; 2]]).
Proof. vm_compute. reflexivity. Qed.

(** With the three species selected, the two species tasks resolve to 4
    for the memory and 8 for the process count; the first one gets one
    worker for each species and the sampling one 1, 20 and 1. *)
Example end_to_end_scenario :
  determine_task_list int_float_decimal demo_species demo_ntors
    demo_run_dct_all demo_file_dct "els" (Some "spc"%string) "all"
  = Ok [ mkTask "init_geom" "spc init_geom runlvl=lvl1" (Some 4) (Some 8)
           [KeyInt 1; KeyInt 2; KeyInt 3] [1; 1; 1];
         mkTask "conf_samp" "spc conf_samp runlvl=lvl1 cnf_range=n50"
           (Some 4) (Some 8) [KeyInt 1; KeyInt 2; KeyInt 3] [1; 20; 1] ].
Proof. vm_compute. reflexivity. Qed.

(** ** The sample count *)

Lemma ceil_log_from_spec (c num den : Z) (fuel t : nat) :
  let r := ceil_log_from c num den fuel t in
  (t <= r <= t + fuel)%nat /\
  (num <= den * c ^ Z.of_nat r \/ r = (t + fuel)%nat) /\
  (forall u, (t <= u < r)%nat -> den * c ^ Z.of_nat u < num).
Proof.
  revert t. induction fuel as [|f IH]; intros t; simpl.
  - split; [lia|]. split; [right; lia|]. intros u Hu. lia.
  - destruct (Z.leb_spec num (den * c ^ Z.of_nat t)) as [Hle|Hgt].
    + split; [lia|]. split; [left; exact Hle|]. intros u Hu. lia.
    + destruct (IH (S t)) as (Hr & Hfound & Hleast).
      split; [lia|]. split.
      * destruct Hfound as [H|H]; [left; exact H | right; lia].
      * intros u Hu. destruct (decide (u = t)) as [->|Hne]; [lia|].
        apply Hleast. lia.
Qed.

(** [ceil_log] is the least exponent that reaches [num]. *)
Lemma ceil_log_least (c num den : Z) (u : nat) :
  (u < ceil_log c num den)%nat -> den * c ^ Z.of_nat u < num.
Proof.
  intros Hu. unfold ceil_log in Hu.
  destruct (ceil_log_from_spec c num den (Z.to_nat num) 0) as (_ & _ & Hleast).
  apply Hleast. lia.
Qed.

Lemma ceil_log_reaches (c num den : Z) (t : nat) :
  2 <= c -> 0 < den -> (ceil_log c num den <= t)%nat ->
  num <= den * c ^ Z.of_nat t.
Proof.
  intros Hc Hden Ht. unfold ceil_log in Ht.
  destruct (ceil_log_from_spec c num den (Z.to_nat num) 0) as (_ & Hfound & _).
  set (r := ceil_log_from c num den (Z.to_nat num) 0) in *.
  assert (Hmono : c ^ Z.of_nat r <= c ^ Z.of_nat t)
    by (apply Z.pow_le_mono_r; lia).
  assert (Hpos : 0 < c ^ Z.of_nat r) by (apply Z.pow_pos_nonneg; lia).
  destruct Hfound as [Hle | Heq].
  - nia.
  - destruct (Z.le_gt_cases num 0) as [Hn|Hn]; [nia|].
    assert (Hlin : Z.of_nat r < c ^ Z.of_nat r).
    { apply Z.le_lt_trans with (2 ^ Z.of_nat r - 1).
      - pose proof (Z.pow_gt_lin_r 2 (Z.of_nat r)). lia.
      - assert (2 ^ Z.of_nat r <= c ^ Z.of_nat r)
          by (apply Z.pow_le_mono_l; lia). lia. }
    assert (Z.of_nat r = num) by lia. nia.
Qed.

(** C3: the sample count is 1 for a structure without torsions, whatever the
    parameters are; with [t >= 1] torsions it is [min(a + b * c^t, d)], and
    therefore it is [d] for every such [t] from the ceiling of
    [log_c((d - a) / b)] on, the parameters being positive with [c >= 2] and
    [d > a]. *)
Theorem sample_count_from_inchi_cap (ntors_of : string -> nat) (chi : string)
    (a b c d : Z) :
  (ntors_of chi = 0%nat -> sample_count_from_inchi ntors_of chi a b c d = 1) /\
  ((1 <= ntors_of chi)%nat ->
   sample_count_from_inchi ntors_of chi a b c d
   = Z.min (a + b * c ^ Z.of_nat (ntors_of chi)) d) /\
  (0 < a -> 0 < b -> 2 <= c -> a < d ->
   (1 <= ntors_of chi)%nat -> (ceil_log c (d - a) b <= ntors_of chi)%nat ->
   sample_count_from_inchi ntors_of chi a b c d = d).
Proof.
  unfold sample_count_from_inchi, sample_count.
  split; [intros ->; reflexivity|].
  split.
  - intros Ht. destruct (Nat.eqb_spec (ntors_of chi) 0) as [H0|_]; [lia|reflexivity].
  - intros Ha Hb Hc Hd Ht Hlog.
    destruct (Nat.eqb_spec (ntors_of chi) 0) as [H0|_]; [lia|].
    pose proof (ceil_log_reaches c (d - a) b (ntors_of chi) Hc Hb Hlog).
    lia.
Qed.

Lemma sample_count_from_inchi_cap_witness :
  sample_count_from_inchi (fun _ => 5%nat) "InChI=1S/C7H16" 12 1 3 100 = 100.
Proof.
  apply (proj2 (proj2 (sample_count_from_inchi_cap
                         (fun _ => 5%nat) "InChI=1S/C7H16" 12 1 3 100)));
    vm_compute; first [reflexivity | lia | discriminate | intros H; discriminate H].
Defined.

(** ** Inversion of the monadic binds *)

Lemma rbind_Ok {A B} (r : result A) (k : A -> result B) (b : B) :
  (r ≫= k) = Ok b -> exists a, r = Ok a /\ k a = Ok b.
Proof. destruct r as [a|e]; simpl; [eauto | discriminate]. Qed.

Lemma io_bind_Ok {A B} (m : IO A) (k : A -> IO B) (tr : list event) (b : B) :
  (m ≫= k) = (tr, Ok b) ->
  exists t1 a t2, m = (t1, Ok a) /\ k a = (t2, Ok b) /\ tr = t1 ++ t2.
Proof.
  destruct m as [t1 [a|e]]; unfold mbind, IO_bind, io_bind.
  - destruct (k a) as [t2 r] eqn:Hk. intros [= <- ->]. eauto 6.
  - discriminate.
Qed.

(** ** The resources of a task *)



(** A line with fields, none of which is [runlvl] or [nprocs], resolves to
    no memory and no process count. *)
Lemma parse_task_resources_none (int_float : string -> result Z)
    (task_line : string) (file_dct : list (string * string))
    (field_dct : gmap string string) :
  parse_task_fields task_line = Ok field_dct ->
  field_dct !! "runlvl" = None ->
  field_dct !! "nprocs" = None ->
  parse_task_memory int_float task_line file_dct = Ok None /\
  parse_task_nprocs int_float task_line file_dct = Ok None.
Proof.
  intros Hfields Hlvl Hnprocs. unfold parse_task_memory, parse_task_nprocs.
  rewrite Hfields. simpl. rewrite Hlvl, Hnprocs. split; reflexivity.
Qed.

(** A task line without the character [=] has no field, and
    [parse_task_fields] raises [ParseException] on it. *)
Lemma substring_one_get (s : string) (loc : nat) (c : ascii) :
  substring loc 1 s = String c EmptyString -> String.get loc s = Some c.
Proof.
  revert loc. induction s as [|x s IH]; intros [|loc]; simpl; try discriminate.
  - destruct s; intros [= ->]; reflexivity.
  - apply IH.
Qed.

Lemma get_contains (s : string) (loc : nat) (c : ascii) :
  String.get loc s = Some c -> contains c s = true.
Proof.
  revert loc. induction s as [|x s IH]; intros [|loc]; simpl; try discriminate.
  - intros [= ->]. rewrite Ascii.eqb_refl. reflexivity.
  - intros H. rewrite (IH _ H). apply orb_true_r.
Qed.

Lemma contains_append (c : ascii) (s1 s2 : string) :
  contains c (s1 +:+ s2) = contains c s1 || contains c s2.
Proof.
  induction s1 as [|x s1 IH]; [reflexivity|].
  change (Ascii.eqb c x || contains c (s1 +:+ s2)
          = Ascii.eqb c x || contains c s1 || contains c s2).
  rewrite IH. apply orb_assoc.
Qed.

Lemma contains_spaces (n : nat) :
  contains "=" (string_of_list_ascii (repeat " "%char n)) = false.
Proof. induction n as [|n IH]; [reflexivity|exact IH]. Qed.

Lemma expandtabs_no_equals (s : string) :
  contains "=" s = false -> contains "=" (Py.expandtabs s) = false.
Proof.
  unfold Py.expandtabs. generalize 0%nat.
  induction s as [|x s IH]; intros col; [reflexivity|].
  cbn [contains Py.expandtabs_go]. intros H.
  apply orb_false_iff in H as [Hx Hs].
  destruct (Py.code x =? 9)%nat.
  - rewrite contains_append, contains_spaces. apply IH, Hs.
  - destruct ((Py.code x =? 10) || (Py.code x =? 13))%nat;
      cbn [contains]; rewrite Hx; apply IH, Hs.
Qed.

Lemma literal_equals_fails (s : string) (pre : bool) (loc : nat) :
  contains "=" s = false -> PP._parse (PP.Literal "=") pre s loc = None.
Proof.
  intros Hno. unfold PP._parse. cbn [PP.parseImpl PP.Literal].
  destruct (String.eqb_spec
              (substring (if pre && PP.callPreparse (PP.Literal "=")
                          then PP.preParse (PP.Literal "=") s loc else loc)
                 (String.length "=") s) "=") as [Heq|_]; [|reflexivity].
  apply substring_one_get, get_contains in Heq. congruence.
Qed.

Lemma task_fields_expr_fails (s : string) (loc : nat) :
  contains "=" s = false -> PP._parse task_fields_expr true s loc = None.
Proof.
  intros Hno.
  set (word := PP.Word (PP.excluding PP.printables "=")).
  set (eq := PP.Suppress (PP.Literal "=")).
  set (field := PP.action field_pair (PP.Group (PP.And (PP.And word eq) word))).
  set (fields := PP.DelimitedList field (PP.WordEnd PP.printables)).
  assert (Heq : forall pre l, PP._parse eq pre s l = None).
  { intros pre l. unfold PP._parse, eq, PP.Suppress, PP.enhance.
    cbn [PP.parseImpl]. rewrite literal_equals_fails by exact Hno. reflexivity. }
  assert (Hwe : forall pre l, PP._parse (PP.And word eq) pre s l = None).
  { intros pre l. unfold PP._parse at 1. cbn [PP.parseImpl PP.And].
    destruct (PP._parse word false s _) as [[l1 a]|]; [|reflexivity].
    rewrite Heq. reflexivity. }
  assert (Hfield : forall pre l, PP._parse field pre s l = None).
  { intros pre l. unfold PP._parse at 1, field, PP.action, PP.Group, PP.enhance.
    cbn [PP.parseImpl]. unfold PP._parse at 1. cbn [PP.parseImpl PP.And].
    rewrite Hwe. reflexivity. }
  assert (Hfields : forall pre l, PP._parse fields pre s l = None).
  { intros pre l. unfold PP._parse at 1, fields, PP.DelimitedList, PP.enhance.
    cbn [PP.parseImpl]. unfold PP._parse at 1. cbn [PP.parseImpl PP.And].
    rewrite Hfield. reflexivity. }
  assert (Hskip : forall fuel l, PP.skipto_go fields s l fuel = None).
  { induction fuel as [|fuel IH]; intros l; [reflexivity|].
    cbn [PP.skipto_go]. rewrite Hfields. apply IH. }
  change task_fields_expr with (PP.And (PP.Suppress (PP.SkipTo fields)) fields).
  unfold PP._parse at 1. cbn [PP.parseImpl PP.And].
  unfold PP._parse at 1, PP.Suppress, PP.enhance. cbn [PP.parseImpl].
  unfold PP._parse at 1, PP.SkipTo. cbn [PP.parseImpl].
  rewrite Hskip. reflexivity.
Qed.

Lemma parse_task_fields_no_equals (task_line : string) :
  contains "=" task_line = false ->
  parse_task_fields task_line = Raise ParseException.
Proof.
  intros Hno. unfold parse_task_fields, PP.parseString.
  rewrite task_fields_expr_fails by (apply expandtabs_no_equals, Hno).
  reflexivity.
Qed.

(** C5: the task line [run_mess] has no [key=value] field at all, and the
    resolution of its memory and of its process count raises
    [ParseException] instead of returning [None]: the skip in front of the
    list of fields finds no field to stop at. *)
Theorem parse_task_resources_without_fields (int_float : string -> result Z)
    (file_dct : list (string * string)) :
  parse_task_fields "run_mess" = Raise ParseException /\
  parse_task_memory int_float "run_mess" file_dct = Raise ParseException /\
  parse_task_nprocs int_float "run_mess" file_dct = Raise ParseException.
Proof.
  assert (H : parse_task_fields "run_mess" = Raise ParseException)
    by (vm_compute; reflexivity).
  unfold parse_task_memory, parse_task_nprocs. rewrite H.
  repeat split; reflexivity.
Qed.

(** ** The index series *)

(** [unique_everseen] keeps the elements, each one once. *)
Lemma elem_of_unique_everseen_go {A} `{EqDecision A} (l seen : list A) (x : A) :
  x ∈ unique_everseen_go l seen <-> x ∈ l /\ x ∉ seen.
Proof.
  revert seen. induction l as [|y l IH]; intros seen; simpl.
  - split; [intros H0; inversion H0 | intros [H0 _]; inversion H0].
  - destruct (decide (y ∈ seen)) as [Hy|Hy].
    + rewrite IH, elem_of_cons. split; [tauto|].
      intros [[->|Hx] Hn]; [contradiction|tauto].
    + rewrite !elem_of_cons, IH, not_elem_of_cons.
      destruct (decide (x = y)) as [->|Hne]; tauto.
Qed.

Lemma elem_of_unique_everseen {A} `{EqDecision A} (l : list A) (x : A) :
  x ∈ unique_everseen l <-> x ∈ l.
Proof.
  unfold unique_everseen. rewrite elem_of_unique_everseen_go.
  split; [tauto|]. intros Hx. split; [exact Hx|]. intros H0. inversion H0.
Qed.

Lemma NoDup_unique_everseen_go {A} `{EqDecision A} (l seen : list A) :
  NoDup (unique_everseen_go l seen).
Proof.
  revert seen. induction l as [|y l IH]; intros seen; simpl.
  - apply NoDup_nil_2.
  - destruct (decide (y ∈ seen)); [apply IH|].
    apply NoDup_cons_2; [|apply IH].
    rewrite elem_of_unique_everseen_go, not_elem_of_cons. tauto.
Qed.

Lemma NoDup_unique_everseen {A} `{EqDecision A} (l : list A) :
  NoDup (unique_everseen l).
Proof. apply NoDup_unique_everseen_go. Qed.

(** A list without duplicates is kept as it is, order included. *)
Lemma unique_everseen_go_NoDup {A} `{EqDecision A} (l seen : list A) :
  NoDup l -> (forall x, x ∈ l -> x ∉ seen) -> unique_everseen_go l seen = l.
Proof.
  intros Hnd. revert seen. induction Hnd as [|y l Hy Hnd IH]; intros seen Hseen.
  - reflexivity.
  - simpl. destruct (decide (y ∈ seen)) as [Hin|_].
    + destruct (Hseen y); [apply list_elem_of_here | exact Hin].
    + f_equal. apply IH. intros x Hx. rewrite not_elem_of_cons. split.
      * intros ->. contradiction.
      * apply Hseen, list_elem_of_further, Hx.
Qed.

(** C7: on the series of its docstring [parse_index_series] stops at the
    first line break and returns [1, 3, 5, 6, 7, 8, 9], not the fourteen
    indices of the docstring; on ["2,2,1,3-4,3"] it returns [2, 1, 3, 4]. *)
Theorem parse_index_series_examples :
  parse_index_series docstring_series = Ok [1; 3; 5; 6; 7; 8; 9] /\
  parse_index_series "2,2,1,3-4,3" = Ok [2; 1; 3; 4].
Proof. split; vm_compute; reflexivity. Qed.

(** With commas in the place of the line breaks the fourteen indices are
    read. *)
Lemma parse_index_series_comma_form :
  parse_index_series "1,3, 5-9  ,  11,13-14,23, 27-29"
  = Ok [1; 3; 5; 6; 7; 8; 9; 11; 13; 14; 23; 27; 28; 29].
Proof. vm_compute. reflexivity. Qed.

(** ** The task list *)

(** On a sampling line that starts with [spc] there are as many worker
    counts as rows in the species table, whatever [nsub] is. *)
Lemma parse_subtasks_nworkers_sampling_length
    (species_inchi : option string -> result (list string))
    (ntors_of : string -> nat) (task_line : string)
    (file_dct : list (string * string)) (nsub : nat)
    (field_dct : gmap string string) (nmax : Z) (inchis : list string) :
  Py.startswith task_line "spc" = true ->
  parse_task_name task_line = Ok "conf_samp"%string ->
  parse_task_fields task_line = Ok field_dct ->
  PyInt.int (tail_str (default "n100"%string (field_dct !! "cnf_range"))) = Ok nmax ->
  species_inchi (od_get "species.csv" file_dct) = Ok inchis ->
  exists nworkers_lst,
    parse_subtasks_nworkers species_inchi ntors_of task_line file_dct nsub
    = Ok nworkers_lst /\
    length nworkers_lst = length inchis.
Proof.
  intros Hspc Hname Hfields Hint Hcsv. unfold parse_subtasks_nworkers.
  rewrite Hspc, Hname, Hfields. simpl. rewrite Hint. simpl. rewrite Hcsv. simpl.
  eexists. split; [reflexivity|]. rewrite !length_map. reflexivity.
Qed.

(** C1: with two species selected in the [spc] block and three species in
    the species table, the sampling task of the group [("els", "spc")] gets
    two subtask keys and three worker counts. *)
Theorem determine_task_list_nworkers_mismatch :
  determine_task_list int_float_decimal demo_species demo_ntors
    demo_run_dct demo_file_dct "els" (Some "spc"%string) "all"
  = Ok [ mkTask "init_geom" "spc init_geom runlvl=lvl1" (Some 4) (Some 8)
           [KeyInt 1; KeyInt 2] [1; 1];
         mkTask "conf_samp" "spc conf_samp runlvl=lvl1 cnf_range=n50"
           (Some 4) (Some 8) [KeyInt 1; KeyInt 2] [1; 20; 1] ].
Proof. vm_compute. reflexivity. Qed.

(** The tasks of the examples are the ones that the resolver produces. *)
Lemma demo_spc_tasks_resolved :
  determine_task_list int_float_decimal demo_species demo_ntors
    demo_run_dct demo_file_dct "els" (Some "spc"%string) "all"
  = Ok demo_spc_tasks.
Proof. vm_compute. reflexivity. Qed.

Lemma demo_pes_task_resolved :
  determine_task_list int_float_decimal demo_species demo_ntors
    demo_run_dct demo_file_dct "els" (Some "pes"%string) "all"
  = Ok [demo_pes_task].
Proof. vm_compute. reflexivity. Qed.

(** ** The worker counts *)





(** ** The group set-up without a group identifier *)

(** C10: without a group identifier [setup_subtask_group] makes no call on
    the outside world and resolves no task; it returns the task type, or the
    task type and the key type joined by an underscore, and no table. *)
Theorem setup_subtask_group_without_group_id
    (int_float : string -> result Z)
    (species_inchi : option string -> result (list string))
    (ntors_of : string -> nat) (run_dct : gmap string string)
    (file_dct : list (string * string)) (task_type : string)
    (key_type : option string) (out_path : Pathlib.Path) :
  setup_subtask_group int_float species_inchi ntors_of run_dct file_dct
    task_type key_type None out_path
  = ([], Ok (inl match key_type with
                 | None => task_type
                 | Some k => (task_type +:+ "_" +:+ k)%string
                 end)).
Proof. destruct key_type; reflexivity. Qed.

(** ** Writing and reading the task list *)

Lemma read_back_ints (l : list Z) :
  rmap to_int (map Yaml.construct (map Yaml.represent (map Yaml.PInt l))) = Ok l.
Proof. induction l as [|n l IH]; simpl; [reflexivity|]. rewrite IH. reflexivity. Qed.

Lemma read_back_keys (ks : list SubtaskKey) :
  rmap to_key (map Yaml.construct (map Yaml.represent (map key_value ks)))
  = Ok (map read_back_key ks).
Proof.
  induction ks as [|k ks IH]; simpl; [reflexivity|].
  rewrite IH.
  destruct k as [s|n|l|l]; simpl; try reflexivity;
    rewrite read_back_ints; reflexivity.
Qed.

Lemma read_back_task_of_dict (t : Task) :
  task_of_dict (Yaml.construct (Yaml.represent (asdict t))) = Ok (read_back_task t).
Proof.
  destruct t as [n l m p ks ws]. unfold asdict. simpl.
  rewrite read_back_keys, read_back_ints.
  destruct m, p; reflexivity.
Qed.

(** Reading a written task list gives the tasks back, up to the tuples among
    the subtask keys. *)
Lemma read_write_task_list (tasks : list Task) :
  read_task_list (Yaml.represent (Yaml.PList (map asdict tasks)))
  = Ok (map read_back_task tasks).
Proof.
  unfold read_task_list.
  change (rmap task_of_dict
            (map Yaml.construct (map Yaml.represent (map asdict tasks)))
          = Ok (map read_back_task tasks)).
  induction tasks as [|t tasks IH]; [reflexivity|].
  cbn [map rmap]. rewrite read_back_task_of_dict, IH. reflexivity.
Qed.

(** The fields other than the subtask keys are read back as they were
    written, a memory or a process count of [None] included; so is a task
    whose keys are integers and strings. *)
Lemma read_back_task_fields (t : Task) :
  name (read_back_task t) = name t /\ line (read_back_task t) = line t /\
  mem (read_back_task t) = mem t /\ nprocs (read_back_task t) = nprocs t /\
  subtask_nworkers (read_back_task t) = subtask_nworkers t.
Proof. repeat split. Qed.

Lemma read_back_task_id (t : Task) :
  Forall (fun k => forall l, k <> KeyTuple l) (subtask_keys t) ->
  read_back_task t = t.
Proof.
  destruct t as [n l m p ks ws]. unfold read_back_task. simpl. intros Hks.
  f_equal. induction Hks as [|k ks Hk _ IH]; simpl; [reflexivity|].
  rewrite IH. destruct k; try reflexivity. now destruct (Hk l0).
Qed.

(** C6: the task of the group [("els", "pes")] is written with its keys as
    sequences and read back with lists in the place of its tuples, so the
    task list that is read differs from the one that was written. *)
Theorem read_write_task_list_pes (path : Pathlib.Path) :
  exists doc,
    write_task_list [demo_pes_task] path = ([WriteYaml path doc], Ok tt) /\
    read_task_list doc
    = Ok [ mkTask "conf_samp" "ts conf_samp runlvl=lvl1 cnf_range=n50"
             (Some 4) (Some 8) [KeyList [1; 1]; KeyList [1; 2]] [1; 1] ] /\
    read_task_list doc <> Ok [demo_pes_task].
Proof.
  eexists. split; [reflexivity|].
  rewrite read_write_task_list. split; [reflexivity|discriminate].
Qed.

(** ** The table of the subtask directories *)

(** Membership in a trace built by the binds. *)
Ltac trace_elem :=
  repeat (progress (rewrite ?elem_of_app, ?elem_of_cons)); tauto.

Lemma lift_Ok {A} (r : result A) (tr : list event) (a : A) :
  lift r = (tr, Ok a) -> r = Ok a /\ tr = [].
Proof. unfold lift. intros [= <- ->]. split; reflexivity. Qed.

Lemma row_get_set_eq (key : SubtaskKey) (value : cell)
    (row_dct : list (SubtaskKey * cell)) :
  row_get key (row_set key value row_dct) = Some value.
Proof.
  induction row_dct as [|[k v] rest IH]; simpl.
  - destruct (decide (key = key)); [reflexivity|congruence].
  - destruct (decide (k = key)) as [->|Hne]; simpl.
    + destruct (decide (key = key)); [reflexivity|congruence].
    + destruct (decide (k = key)); [congruence|exact IH].
Qed.

Lemma row_get_set_ne (key key' : SubtaskKey) (value : cell)
    (row_dct : list (SubtaskKey * cell)) :
  key <> key' ->
  row_get key' (row_set key value row_dct) = row_get key' row_dct.
Proof.
  intros Hne. induction row_dct as [|[k v] rest IH]; simpl.
  - destruct (decide (key = key')); [congruence|reflexivity].
  - destruct (decide (k = key)) as [->|Hk]; simpl.
    + destruct (decide (key = key')); [congruence|reflexivity].
    + destruct (decide (k = key')); [reflexivity|exact IH].
Qed.

(** The cells of a row after the loop over the keys of a task. *)
Lemma subtask_loop_cells (task_path : Pathlib.Path)
    (task_run_dct : gmap string string) (file_dct : list (string * string))
    (key_type : option string) (all_key : string) (keys : list SubtaskKey) :
  forall row0 tr row,
    subtask_loop task_path task_run_dct file_dct key_type all_key keys row0
    = (tr, Ok row) ->
    (forall key, key ∈ keys ->
       exists dir, _subtask_directory key = Ok dir /\
         row_get key row = Some (CPath (Pathlib.div task_path dir)) /\
         Mkdir (Pathlib.div task_path dir) true ∈ tr) /\
    (forall key, key ∉ keys -> row_get key row = row_get key row0).
Proof.
  induction keys as [|key0 keys IH]; intros row0 tr row Hrun.
  - injection Hrun as <- <-. split; [intros key Hin; inversion Hin | reflexivity].
  - cbn [subtask_loop] in Hrun.
    apply io_bind_Ok in Hrun as (t1 & dir0 & t2 & Hdir & Hrun & ->).
    apply lift_Ok in Hdir as [Hdir ->].
    apply io_bind_Ok in Hrun as (t3 & [] & t4 & Hmk & Hrun & ->).
    injection Hmk as <-.
    apply io_bind_Ok in Hrun as (t5 & srd & t6 & Hsrd & Hrun & ->).
    apply lift_Ok in Hsrd as [_ ->].
    apply io_bind_Ok in Hrun as (t7 & [] & t8 & Hwr & Hrun & ->).
    apply IH in Hrun as [Hcells Hframe].
    split.
    + intros key Hin. destruct (decide (key ∈ keys)) as [Hk|Hk].
      * destruct (Hcells key Hk) as (dir & Hd & Hrow & Hev).
        exists dir. repeat split; try assumption.
        trace_elem.
      * apply elem_of_cons in Hin as [->|Hin]; [|contradiction].
        exists dir0. repeat split; [assumption| |].
        -- rewrite (Hframe key0 Hk). apply row_get_set_eq.
        -- trace_elem.
    + intros key Hnot. apply not_elem_of_cons in Hnot as [Hne Hnot].
      rewrite (Hframe key Hnot). apply row_get_set_ne. congruence.
Qed.


(** ["{:02d}".format(n)] has two digits for [0 <= n < 100], and they are
    the decimal digits of [n]. *)
Lemma id_str_two_digits (n : Z) :
  0 <= n < 100 ->
  String.length (id_str_ n) = 2%nat /\ Py.digits_val (id_str_ n) 0 = n.
Proof.
  intros Hn.
  assert (Hall : forallb (fun i =>
                   (String.length (id_str_ (Z.of_nat i)) =? 2)%nat
                   && (Py.digits_val (id_str_ (Z.of_nat i)) 0 =? Z.of_nat i))
                   (seq 0 100) = true) by (vm_compute; reflexivity).
  rewrite forallb_forall in Hall. specialize (Hall (Z.to_nat n)).
  rewrite Z2Nat.id in Hall by lia.
  apply andb_true_iff in Hall as [Hlen Hval]; [|apply in_seq; lia].
  split; [apply Nat.eqb_eq, Hlen | apply Z.eqb_eq, Hval].
Qed.



(** ** The input block of the run dictionary and of the subtasks *)












Lemma main_set_paths_Ok (run_dct run_dct' : gmap string string)
    (save_path run_path : option string) (save run : string) :
  main_set_paths run_dct save_path run_path = Ok (run_dct', save, run) ->
  filesystem_paths_from_run_dict run_dct save_path run_path = Ok (save, run) /\
  run_dct' = <["input" := input_block run save]> run_dct.
Proof.
  unfold main_set_paths. intros H.
  apply rbind_Ok in H as ([s r] & Hpaths & H). simpl in H.
  injection H as <- <- <-. split; [exact Hpaths|reflexivity].
Qed.





(** * Further properties of the set-up *)

(** ** The subtask keys *)

Lemma parse_index_series_NoDup_aux (inp : string) (idxs : list Z) :
  parse_index_series inp = Ok idxs -> NoDup idxs.
Proof.
  unfold parse_index_series. intros H.
  apply rbind_Ok in H as (res & _ & H). injection H as <-.
  apply NoDup_unique_everseen.
Qed.

(** X1: the indices that [parse_index_series] returns are pairwise
    different. *)
Theorem parse_index_series_NoDup (inp : string) (idxs : list Z) :
  parse_index_series inp = Ok idxs -> NoDup idxs.
Proof. apply parse_index_series_NoDup_aux. Qed.

Lemma parse_index_series_NoDup_witness : NoDup [2; 1; 3; 4].
Proof.
  apply (parse_index_series_NoDup "2,2,1,3-4,3"). vm_compute. reflexivity.
Defined.

Lemma rmap_Ok {A B} (f : A -> result B) (l : list A) (l' : list B) :
  rmap f l = Ok l' -> Forall2 (fun x y => f x = Ok y) l l'.
Proof.
  revert l'. induction l as [|x l IH]; intros l'; simpl.
  - intros [= <-]. constructor.
  - destruct (f x) as [y|e] eqn:Hx; [|discriminate].
    destruct (rmap f l) as [ys|e]; [|discriminate].
    intros [= <-]. constructor; [exact Hx|apply IH; reflexivity].
Qed.

Lemma subtask_keys_NoDup_aux (run_dct : gmap string string)
    (subtask_type : option string) (all_key : string) (keys : list SubtaskKey) :
  subtask_keys_from_run_dict run_dct subtask_type all_key = Ok (Some keys) ->
  NoDup keys.
Proof.
  unfold subtask_keys_from_run_dict. destruct subtask_type as [ty|].
  - destruct (String.eqb ty "spc").
    + intros H. apply rbind_Ok in H as (blk & _ & H).
      apply rbind_Ok in H as (idxs & Hidxs & H). injection H as <-.
      apply NoDup_fmap_2; [intros x y [= ->]; reflexivity|].
      apply parse_index_series_NoDup_aux in Hidxs. exact Hidxs.
    + destruct (String.eqb ty "pes"); [|discriminate].
      intros H. apply rbind_Ok in H as (blk & _ & H).
      apply rbind_Ok in H as (entries & _ & H).
      apply rbind_Ok in H as (ks & _ & H). injection H as <-.
      apply NoDup_unique_everseen.
  - intros [= <-]. apply NoDup_singleton.
Qed.

(** X2: the subtask keys of a group are pairwise different, whatever the
    type of the keys is. *)
Theorem subtask_keys_NoDup (run_dct : gmap string string)
    (subtask_type : option string) (all_key : string) (keys : list SubtaskKey) :
  subtask_keys_from_run_dict run_dct subtask_type all_key = Ok (Some keys) ->
  NoDup keys.
Proof. apply subtask_keys_NoDup_aux. Qed.

Lemma subtask_keys_NoDup_witness :
  NoDup [KeyTuple [1; 1]; KeyTuple [1; 2]].
Proof.
  apply (subtask_keys_NoDup demo_run_dct (Some "pes"%string) "all").
  vm_compute. reflexivity.
Defined.

(** ** The fields and the resources of a task line *)

(** X3: a task line without the character [=] has no field: reading its
    fields raises [ParseException], and so does the resolution of its
    memory and of its process count. *)
Theorem parse_task_resources_no_field (int_float : string -> result Z)
    (task_line : string) (file_dct : list (string * string)) :
  contains "=" task_line = false ->
  parse_task_fields task_line = Raise ParseException /\
  parse_task_memory int_float task_line file_dct = Raise ParseException /\
  parse_task_nprocs int_float task_line file_dct = Raise ParseException.
Proof.
  intros Hno. pose proof (parse_task_fields_no_equals task_line Hno) as H.
  unfold parse_task_memory, parse_task_nprocs. rewrite H.
  split; [reflexivity|split; reflexivity].
Qed.

Lemma parse_task_resources_no_field_witness :
  parse_task_fields "spc init_geom" = Raise ParseException /\
  parse_task_memory int_float_decimal "spc init_geom" demo_file_dct
  = Raise ParseException /\
  parse_task_nprocs int_float_decimal "spc init_geom" demo_file_dct
  = Raise ParseException.
Proof. apply parse_task_resources_no_field. reflexivity. Defined.

Lemma parse_task_resources_none_witness :
  parse_task_memory int_float_decimal "write_mess kin_model=global" demo_file_dct
  = Ok None /\
  parse_task_nprocs int_float_decimal "write_mess kin_model=global" demo_file_dct
  = Ok None.
Proof.
  apply (parse_task_resources_none int_float_decimal _ _
           (dict_of_pairs [("kin_model", "global")]%string));
    vm_compute; reflexivity.
Defined.

(** X4: a level named by [runlvl] that the theory table does not define is
    an error: the memory of the task is not resolved, and neither is its
    process count, whether or not the line has an in-line [nprocs] field
    that reads as a number. *)
Theorem unknown_runlvl_raises (int_float : string -> result Z)
    (task_line : string) (file_dct : list (string * string))
    (field_dct : gmap string string) (runlvl theory_dat : string)
    (theory_dct : gmap string (gmap string string)) :
  parse_task_fields task_line = Ok field_dct ->
  field_dct !! "runlvl" = Some runlvl ->
  od_get "theory.dat" file_dct = Some theory_dat ->
  parse_theory_dat theory_dat = Ok theory_dct ->
  theory_dct !! runlvl = None ->
  parse_task_memory int_float task_line file_dct = Raise AttributeError /\
  (field_dct !! "nprocs" = None \/
   (exists v n, field_dct !! "nprocs" = Some v /\ int_float v = Ok n) ->
   parse_task_nprocs int_float task_line file_dct = Raise AttributeError).
Proof.
  intros Hfields Hlvl Hfile Hth Hnone.
  assert (Hval : forall key, theory_value int_float file_dct runlvl key
                             = Raise AttributeError).
  { intros key. unfold theory_value. rewrite Hfile. simpl. rewrite Hth. simpl.
    rewrite Hnone. reflexivity. }
  unfold parse_task_memory, parse_task_nprocs. rewrite Hfields. simpl.
  rewrite Hlvl, !Hval. split; [reflexivity|].
  intros [->|(v & n & -> & Hn)]; simpl; [reflexivity|].
  rewrite Hn. reflexivity.
Qed.

Lemma unknown_runlvl_raises_witness :
  parse_task_memory int_float_decimal "spc init_geom runlvl=lvl9" demo_file_dct
  = Raise AttributeError.
Proof.
  refine (proj1 (unknown_runlvl_raises int_float_decimal
                   "spc init_geom runlvl=lvl9" demo_file_dct
                   (dict_of_pairs [("runlvl", "lvl9")]%string) "lvl9"
                   demo_theory_dat
                   (<["lvl1"%string :=
                        dict_of_pairs [("mem", "4.0"); ("nprocs", "8")]%string]> ∅)
                   _ _ _ _ _));
    vm_compute; reflexivity.
Defined.

(** ** The worker counts *)

(** X5: no subtask ever gets less than one worker. *)
Theorem parse_subtasks_nworkers_floor
    (species_inchi : option string -> result (list string))
    (ntors_of : string -> nat) (task_line : string)
    (file_dct : list (string * string)) (nsub : nat) (nworkers_lst : list Z) :
  parse_subtasks_nworkers species_inchi ntors_of task_line file_dct nsub
  = Ok nworkers_lst ->
  Forall (fun n => 1 <= n) nworkers_lst.
Proof.
  unfold parse_subtasks_nworkers.
  assert (Hones : Forall (fun n => 1 <= n) (repeat 1 nsub)).
  { apply Forall_forall. intros n Hn. apply list_elem_of_In, repeat_spec in Hn. lia. }
  destruct (Py.startswith task_line "spc"); [|intros [= <-]; exact Hones].
  intros H. apply rbind_Ok in H as (task_name & _ & H).
  apply rbind_Ok in H as (field_dct & _ & H).
  destruct (bool_decide _ || _); [|injection H as <-; exact Hones].
  apply rbind_Ok in H as (nmax & _ & H).
  apply rbind_Ok in H as (inchis & _ & H). injection H as <-.
  apply Forall_forall. intros n Hn.
  apply list_elem_of_fmap in Hn as (m & -> & _). lia.
Qed.

Lemma parse_subtasks_nworkers_floor_witness :
  Forall (fun n => 1 <= n) [1; 20; 1].
Proof.
  apply (parse_subtasks_nworkers_floor demo_species demo_ntors
           "spc conf_samp runlvl=lvl1 cnf_range=n50" demo_file_dct 2).
  vm_compute. reflexivity.
Defined.

(** A line that does not start with [spc] gets [nsub] worker counts. *)
Lemma parse_subtasks_nworkers_other_length
    (species_inchi : option string -> result (list string))
    (ntors_of : string -> nat) (task_line : string)
    (file_dct : list (string * string)) (nsub : nat) (nworkers_lst : list Z) :
  Py.startswith task_line "spc" = false ->
  parse_subtasks_nworkers species_inchi ntors_of task_line file_dct nsub
  = Ok nworkers_lst ->
  length nworkers_lst = nsub.
Proof.
  unfold parse_subtasks_nworkers. intros ->. intros [= <-]. apply repeat_length.
Qed.

Lemma Forall2_elem_of_r {A B} (P : A -> B -> Prop) (l : list A) (k : list B)
    (y : B) :
  Forall2 P l k -> y ∈ k -> exists x, x ∈ l /\ P x y.
Proof.
  induction 1 as [|x y' l k Hxy _ IH]; intros Hin; [inversion Hin|].
  apply elem_of_cons in Hin as [->|Hin].
  - exists x. split; [apply list_elem_of_here|exact Hxy].
  - destruct (IH Hin) as (x' & Hx' & HP).
    exists x'. split; [apply list_elem_of_further, Hx'|exact HP].
Qed.

(** What [determine_task_list] computes for each task line. *)
Lemma determine_task_list_Ok (int_float : string -> result Z)
    (species_inchi : option string -> result (list string))
    (ntors_of : string -> nat) (run_dct : gmap string string)
    (file_dct : list (string * string)) (task_type : string)
    (key_type : option string) (all_key : string) (tasks : list Task) :
  determine_task_list int_float species_inchi ntors_of run_dct file_dct
    task_type key_type all_key = Ok tasks ->
  exists okeys task_lines,
    subtask_keys_from_run_dict run_dct key_type all_key = Ok okeys /\
    task_lines_from_run_dict run_dct task_type key_type = Ok task_lines /\
    Forall2 (fun task_line task =>
               line task = task_line /\
               parse_task_name task_line = Ok (name task) /\
               parse_task_memory int_float task_line file_dct = Ok (mem task) /\
               parse_task_nprocs int_float task_line file_dct = Ok (nprocs task) /\
               okeys = Some (subtask_keys task) /\
               parse_subtasks_nworkers species_inchi ntors_of task_line file_dct
                 (length (subtask_keys task)) = Ok (subtask_nworkers task))
            task_lines tasks.
Proof.
  unfold determine_task_list. intros H.
  apply rbind_Ok in H as (okeys & Hkeys & H).
  apply rbind_Ok in H as (task_lines & Hlines & H).
  exists okeys, task_lines. split; [exact Hkeys|]. split; [exact Hlines|].
  apply rmap_Ok in H. eapply Forall2_impl; [exact H|].
  intros task_line task Htask. simpl in Htask.
  apply rbind_Ok in Htask as (nm & Hnm & Htask).
  apply rbind_Ok in Htask as (m & Hm & Htask).
  apply rbind_Ok in Htask as (np & Hnp & Htask).
  apply rbind_Ok in Htask as (keys & Hk & Htask).
  apply rbind_Ok in Htask as (nw & Hnw & Htask).
  injection Htask as <-. simpl.
  destruct okeys as [keys'|]; [|discriminate]. injection Hk as ->.
  repeat split; assumption.
Qed.

(** X6: every task resolved from a line that does not start with [spc] has
    as many worker counts as subtask keys; this holds for all the tasks of
    the group [("els", "pes")], whose lines start with [ts]. *)
Theorem determine_task_list_equal_lengths (int_float : string -> result Z)
    (species_inchi : option string -> result (list string))
    (ntors_of : string -> nat) (run_dct : gmap string string)
    (file_dct : list (string * string)) (task_type : string)
    (key_type : option string) (all_key : string) (tasks : list Task) :
  determine_task_list int_float species_inchi ntors_of run_dct file_dct
    task_type key_type all_key = Ok tasks ->
  (forall task, task ∈ tasks -> Py.startswith (line task) "spc" = false ->
     length (subtask_nworkers task) = length (subtask_keys task)) /\
  (task_type = "els"%string -> key_type = Some "pes"%string ->
   forall task, task ∈ tasks ->
     length (subtask_nworkers task) = length (subtask_keys task)).
Proof.
  intros H. apply determine_task_list_Ok in H
    as (okeys & task_lines & _ & Hlines & Hall).
  assert (Hother : forall task, task ∈ tasks ->
            Py.startswith (line task) "spc" = false ->
            length (subtask_nworkers task) = length (subtask_keys task)).
  { intros task Hin Hspc.
    apply (Forall2_elem_of_r _ _ _ _ Hall) in Hin as (task_line & _ & Ht).
    destruct Ht as (Hline & _ & _ & _ & _ & Hnw). subst task_line.
    exact (parse_subtasks_nworkers_other_length _ _ _ _ _ _ Hspc Hnw). }
  split; [exact Hother|].
  intros -> -> task Hin. apply Hother; [exact Hin|].
  pose proof Hin as Hin'.
  apply (Forall2_elem_of_r _ _ _ _ Hall) in Hin' as (task_line & Hl & Ht).
  destruct Ht as (Hline & _). subst task_line.
  unfold task_lines_from_run_dict in Hlines.
  apply rbind_Ok in Hlines as (block & _ & Hlines). simpl in Hlines.
  injection Hlines as <-.
  apply list_elem_of_filter in Hl as [Hts _]. apply Is_true_true in Hts.
  destruct (line task) as [|c rest]; [discriminate Hts|].
  unfold Py.startswith in *.
  destruct c as [[] [] [] [] [] [] [] []]; try discriminate Hts; reflexivity.
Qed.

Lemma determine_task_list_equal_lengths_witness :
  length (subtask_nworkers demo_pes_task) = length (subtask_keys demo_pes_task).
Proof.
  refine (proj2 (determine_task_list_equal_lengths int_float_decimal
                   demo_species demo_ntors demo_run_dct demo_file_dct
                   "els" (Some "pes"%string) "all" [demo_pes_task] _)
            eq_refl eq_refl demo_pes_task _).
  - vm_compute. reflexivity.
  - apply list_elem_of_here.
Defined.

(** ** The task list *)

(** X7: [determine_task_list] resolves one task for each line that
    [task_lines_from_run_dict] selects, in the order of the lines and with
    the line kept as it is; all the tasks of the group carry the same list
    of subtask keys, the one of [subtask_keys_from_run_dict]. *)
Theorem determine_task_list_lines (int_float : string -> result Z)
    (species_inchi : option string -> result (list string))
    (ntors_of : string -> nat) (run_dct : gmap string string)
    (file_dct : list (string * string)) (task_type : string)
    (key_type : option string) (all_key : string) (tasks : list Task) :
  determine_task_list int_float species_inchi ntors_of run_dct file_dct
    task_type key_type all_key = Ok tasks ->
  task_lines_from_run_dict run_dct task_type key_type = Ok (map line tasks) /\
  forall task, task ∈ tasks ->
    subtask_keys_from_run_dict run_dct key_type all_key
    = Ok (Some (subtask_keys task)).
Proof.
  intros H. apply determine_task_list_Ok in H
    as (okeys & task_lines & Hkeys & Hlines & Hall).
  split.
  - rewrite Hlines. f_equal. clear Hlines.
    induction Hall as [|l t ls ts (Hl & _) _ IH]; [reflexivity|].
    simpl. rewrite Hl, IH. reflexivity.
  - intros task Hin.
    apply (Forall2_elem_of_r _ _ _ _ Hall) in Hin
      as (task_line & _ & (_ & _ & _ & _ & <- & _)).
    exact Hkeys.
Qed.

Lemma determine_task_list_lines_witness :
  task_lines_from_run_dict demo_run_dct "els" (Some "spc"%string)
  = Ok (map line demo_spc_tasks).
Proof.
  apply (determine_task_list_lines int_float_decimal demo_species demo_ntors
           demo_run_dct demo_file_dct "els" (Some "spc"%string) "all"
           demo_spc_tasks).
  vm_compute. reflexivity.
Defined.

(** X8: from the [els] block only the lines that start with [spc] are
    taken for the species subtasks and only the ones that start with [ts]
    for the subtasks of the potential energy surfaces; with any other
    subtask type the selection fails on its assertion. *)
Theorem task_lines_els (run_dct : gmap string string)
    (subtask_type : option string) (block : string) :
  run_dct !! "els" = Some block ->
  match task_lines_from_run_dict run_dct "els" subtask_type with
  | Ok lines =>
      (subtask_type = Some "spc"%string /\
       Forall (fun l => Py.startswith l "spc" = true) lines) \/
      (subtask_type = Some "pes"%string /\
       Forall (fun l => Py.startswith l "ts" = true) lines)
  | Raise e =>
      e = AssertionError /\ subtask_type <> Some "spc"%string /\
      subtask_type <> Some "pes"%string
  end.
Proof.
  intros Hblock. unfold task_lines_from_run_dict. rewrite Hblock. simpl.
  destruct (bool_decide (subtask_type ∈ [Some "spc"; Some "pes"]%string)) eqn:Hty.
  - apply bool_decide_eq_true in Hty.
    assert (Hfilter : forall key,
              Forall (fun l => Py.startswith l key = true)
                (filter (fun l => Is_true (Py.startswith l key))
                   (map Py.strip (Py.splitlines block)))).
    { intros key. apply Forall_forall. intros l Hl.
      apply list_elem_of_filter in Hl as [Hl _]. apply Is_true_true, Hl. }
    apply elem_of_cons in Hty as [->|Hty].
    + left. split; [reflexivity|]. apply Hfilter.
    + apply elem_of_cons in Hty as [->|Hty]; [|inversion Hty].
      right. split; [reflexivity|]. apply Hfilter.
  - apply bool_decide_eq_false in Hty. split; [reflexivity|].
    split; intros ->; apply Hty.
    + apply list_elem_of_here.
    + apply list_elem_of_further, list_elem_of_here.
Qed.

Lemma task_lines_els_witness :
  match task_lines_from_run_dict demo_run_dct "els" None with
  | Ok _ => False
  | Raise e => e = AssertionError
  end.
Proof.
  pose proof (task_lines_els demo_run_dct None _ eq_refl) as H.
  destruct (task_lines_from_run_dict demo_run_dct "els" None) as [lines|e].
  - destruct H as [[H _]|[H _]]; discriminate H.
  - exact (proj1 H).
Defined.

(** ** Writing and reading the task list, again *)

(** X9: a list of tasks whose subtask keys are integers and strings is
    read back from the YAML file as it was written, field by field, a
    memory or a process count of [None] included. *)
Theorem task_list_round_trip (tasks : list Task) (path : Pathlib.Path) :
  Forall (fun t => Forall (fun k => forall l, k <> KeyTuple l) (subtask_keys t))
    tasks ->
  exists doc,
    write_task_list tasks path = ([WriteYaml path doc], Ok tt) /\
    read_task_list doc = Ok tasks.
Proof.
  intros Hkeys. eexists. split; [reflexivity|].
  rewrite read_write_task_list. f_equal.
  induction Hkeys as [|t tasks Ht _ IH]; [reflexivity|].
  simpl. rewrite (read_back_task_id t Ht), IH. reflexivity.
Qed.

Lemma task_list_round_trip_witness :
  exists doc,
    write_task_list
      [mkTask "write_mess" "write_mess kin_model=global" None None
         [KeyStr "all"] [1];
       mkTask "conf_samp" "spc conf_samp runlvl=lvl1 cnf_range=n50"
         (Some 4) (Some 8) [KeyInt 1; KeyInt 2] [1; 20]]
      (Pathlib.parse "subtasks/0.yaml")
    = ([WriteYaml (Pathlib.parse "subtasks/0.yaml") doc], Ok tt) /\
    read_task_list doc
    = Ok [mkTask "write_mess" "write_mess kin_model=global" None None
            [KeyStr "all"] [1];
          mkTask "conf_samp" "spc conf_samp runlvl=lvl1 cnf_range=n50"
            (Some 4) (Some 8) [KeyInt 1; KeyInt 2] [1; 20]].
Proof.
  apply task_list_round_trip.
  repeat (apply Forall_cons; split); try apply Forall_nil_2; discriminate.
Defined.

(** ** The set-up as a whole *)

(** X10: nothing is made or written before the input is found in order:
    [main] makes no call on the file system when an input file cannot be
    read, when run.dat lacks a block, or when a path is neither given nor
    found in the [input] block; and [setup_subtask_group] makes none when
    the tasks of the group cannot be resolved. *)
Theorem no_output_on_input_error (int_float : string -> result Z)
    (species_inchi : option string -> result (list string))
    (ntors_of : string -> nat) (read_text : Pathlib.Path -> result string)
    (getcwd : string) (path out_path : string)
    (save_path run_path : option string)
    (groups : list (string * option string)) (e : exn) :
  let run :=
    main int_float species_inchi ntors_of read_text getcwd path out_path
      save_path run_path groups in
  (read_input_files read_text (Pathlib.parse path) = Raise e ->
   run = ([], Raise e)) /\
  (forall file_dct run_dat,
     read_input_files read_text (Pathlib.parse path) = Ok file_dct ->
     od_get "run.dat" file_dct = Some run_dat ->
     parse_run_dat run_dat = Raise e ->
     run = ([], Raise e)) /\
  (forall file_dct run_dat run_dct,
     read_input_files read_text (Pathlib.parse path) = Ok file_dct ->
     od_get "run.dat" file_dct = Some run_dat ->
     parse_run_dat run_dat = Ok run_dct ->
     filesystem_paths_from_run_dict run_dct save_path run_path = Raise e ->
     run = ([], Raise e)) /\
  (forall run_dct file_dct task_type key_type group_id out_dir,
     determine_task_list int_float species_inchi ntors_of run_dct file_dct
       task_type key_type "all" = Raise e ->
     setup_subtask_group int_float species_inchi ntors_of run_dct file_dct
       task_type key_type (Some group_id) out_dir = ([], Raise e)).
Proof.
  intros run. unfold run, main. repeat split.
  - intros ->. reflexivity.
  - intros file_dct run_dat -> Hrd Hparse.
    cbn [mbind IO_bind io_bind lift]. rewrite Hrd.
    cbn [of_option io_bind]. rewrite Hparse. reflexivity.
  - intros file_dct run_dat run_dct -> Hrd Hparse Hpaths.
    cbn [mbind IO_bind io_bind lift]. rewrite Hrd.
    cbn [of_option io_bind]. rewrite Hparse. cbn [io_bind].
    unfold main_set_paths. rewrite Hpaths. reflexivity.
  - intros run_dct file_dct task_type key_type group_id out_dir Hdet.
    unfold setup_subtask_group. rewrite Hdet. reflexivity.
Qed.

Lemma no_output_on_input_error_witness :
  main int_float_decimal demo_species demo_ntors (fun _ => Raise OSError)
    "/home/user" "job" "subtasks" None None DEFAULT_GROUPS
  = ([], Raise OSError).
Proof.
  apply (proj1 (no_output_on_input_error int_float_decimal demo_species
                  demo_ntors (fun _ => Raise OSError) "/home/user" "job"
                  "subtasks" None None DEFAULT_GROUPS OSError)).
  reflexivity.
Defined.

(** X11: when [main] succeeds, the last thing it does is to write the
    general information to [info.yaml] under the output path: the
    identifiers 0, 1, ... of the groups in their order, the run and save
    paths that it resolved, and the current directory as the work path. *)
Theorem main_writes_info (int_float : string -> result Z)
    (species_inchi : option string -> result (list string))
    (ntors_of : string -> nat) (read_text : Pathlib.Path -> result string)
    (getcwd : string) (path out_path : string)
    (save_path run_path : option string)
    (groups : list (string * option string)) (tr : list event) :
  main int_float species_inchi ntors_of read_text getcwd path out_path
    save_path run_path groups = (tr, Ok tt) ->
  exists file_dct run_dat run_dct save run tr',
    read_input_files read_text (Pathlib.parse path) = Ok file_dct /\
    od_get "run.dat" file_dct = Some run_dat /\
    parse_run_dat run_dat = Ok run_dct /\
    filesystem_paths_from_run_dict run_dct save_path run_path = Ok (save, run) /\
    let info_path := Pathlib.div (Pathlib.parse out_path) "info.yaml" in
    tr = tr'
         ++ [ Print ("Writing general information to " +:+ Pathlib.str info_path);
              WriteYaml info_path
                (Yaml.Mapping
                   [ ("group_ids",
                      Yaml.Seq (map (fun i => Yaml.Int (Z.of_nat i))
                                  (seq 0 (length groups))));
                     ("run_path", Yaml.Str run);
                     ("save_path", Yaml.Str save);
                     ("work_path", Yaml.Str getcwd) ]%string) ].
Proof.
  unfold main. intros H.
  apply io_bind_Ok in H as (t1 & file_dct & t2 & Hfiles & H & ->).
  apply lift_Ok in Hfiles as [Hfiles ->].
  apply io_bind_Ok in H as (t3 & run_dat & t4 & Hrd & H & ->).
  apply lift_Ok in Hrd as [Hrd ->].
  apply io_bind_Ok in H as (t5 & run_dct & t6 & Hparse & H & ->).
  apply lift_Ok in Hparse as [Hparse ->].
  apply io_bind_Ok in H as (t7 & [[run_dct' save] run] & t8 & Hset & H & ->).
  apply lift_Ok in Hset as [Hset ->].
  apply main_set_paths_Ok in Hset as [Hpaths ->].
  apply io_bind_Ok in H as (t9 & [] & t10 & Hmk & H & ->).
  injection Hmk as <-.
  apply io_bind_Ok in H as (t11 & [] & t12 & Hloop & H & ->).
  apply io_bind_Ok in H as (t13 & [] & t14 & Hpr & H & ->).
  injection Hpr as <-. injection H as <-.
  exists file_dct, run_dat, run_dct, save, run,
    ([Mkdir (Pathlib.parse out_path) false] ++ t11).
  split; [exact Hfiles|]. split.
  { destruct (od_get "run.dat" file_dct); [|discriminate Hrd].
    injection Hrd as ->. reflexivity. }
  split; [exact Hparse|]. split; [exact Hpaths|].
  cbn [fst snd app]. rewrite List.map_map. reflexivity.
Qed.

Lemma main_writes_info_witness :
  exists tr' doc,
    (main int_float_decimal demo_species demo_ntors demo_read_text "/home/user"
       "job" "subtasks" None None [("els", Some "spc")]%string).1
    = tr' ++ [ Print "Writing general information to subtasks/info.yaml";
               WriteYaml (Pathlib.parse "subtasks/info.yaml") doc ].
Proof.
  pose (run := main int_float_decimal demo_species demo_ntors demo_read_text
                 "/home/user" "job" "subtasks" None None
                 [("els", Some "spc")]%string).
  assert (Hrun : run = (run.1, Ok tt)) by (vm_compute; reflexivity).
  destruct (main_writes_info _ _ _ _ _ _ _ _ _ _ _ Hrun)
    as (file_dct & run_dat & run_dct & save & run' & tr' & _ & _ & _ & _ & Htr).
  exists tr'. eexists. exact Htr.
Defined.

(** ** The table and the files of a group *)

(** The keys of a group never are the string ["task"], the name of the
    column of the task names. *)
Lemma subtask_keys_not_task (run_dct : gmap string string)
    (subtask_type : option string) (keys : list SubtaskKey) :
  subtask_keys_from_run_dict run_dct subtask_type "all" = Ok (Some keys) ->
  KeyStr "task" ∉ keys.
Proof.
  unfold subtask_keys_from_run_dict. destruct subtask_type as [ty|].
  - destruct (String.eqb ty "spc").
    + intros H. apply rbind_Ok in H as (blk & _ & H).
      apply rbind_Ok in H as (idxs & _ & H). injection H as <-.
      intros Hin. apply list_elem_of_fmap in Hin as (n & Hn & _). discriminate Hn.
    + destruct (String.eqb ty "pes"); [|discriminate].
      intros H. apply rbind_Ok in H as (blk & _ & H).
      apply rbind_Ok in H as (entries & _ & H).
      apply rbind_Ok in H as (ks & Hks & H). injection H as <-.
      rewrite elem_of_unique_everseen. intros Hin.
      apply list_elem_of_In, in_concat in Hin as (l & Hin & Hl).
      apply list_elem_of_In in Hin, Hl.
      apply rmap_Ok in Hks.
      apply (Forall2_elem_of_r _ _ _ _ Hks) in Hin as (res & _ & Hres).
      apply rbind_Ok in Hres as (cidxs & _ & Hres). injection Hres as <-.
      apply list_elem_of_fmap in Hl as (c & Hc & _). discriminate Hc.
  - intros [= <-]. intros Hin. apply list_elem_of_singleton in Hin. discriminate Hin.
Qed.

Lemma task_loop_names (run_dct : gmap string string)
    (file_dct : list (string * string)) (task_type : string)
    (key_type : option string) (all_key : string) (block_keys : list string)
    (group_id : string) (out_path : Pathlib.Path) (tasks : list Task) :
  Forall (fun task => KeyStr "task" ∉ subtask_keys task) tasks ->
  forall task_key tr rows,
    task_loop run_dct file_dct task_type key_type all_key block_keys
      group_id out_path task_key tasks = (tr, Ok rows) ->
    Forall2 (fun task row => row_get (KeyStr "task") row = Some (CName (name task)))
      tasks rows.
Proof.
  induction 1 as [|task tasks Hnot _ IH]; intros task_key tr rows Hrun.
  - injection Hrun as <- <-. constructor.
  - cbn [task_loop] in Hrun.
    apply io_bind_Ok in Hrun as (t1 & [] & t2 & _ & Hrun & ->).
    apply io_bind_Ok in Hrun as (t3 & row & t4 & Hsub & Hrun & ->).
    apply io_bind_Ok in Hrun as (t5 & rows' & t6 & Hrest & Hrun & ->).
    injection Hrun as <- <-. constructor; [|exact (IH _ _ _ Hrest)].
    apply subtask_loop_cells in Hsub as [_ Hframe].
    rewrite (Hframe _ Hnot). reflexivity.
Qed.

(** X12: the table that [setup_subtask_group] returns, which is also the
    one it hands to the CSV writer, has one row for each resolved task, in
    the order of the tasks, and the cell of the column [task] of each row is
    the name of its task. *)
Theorem setup_subtask_group_rows
    (int_float : string -> result Z)
    (species_inchi : option string -> result (list string))
    (ntors_of : string -> nat) (run_dct : gmap string string)
    (file_dct : list (string * string)) (task_type : string)
    (key_type : option string) (group_id : group_id_t)
    (out_path : Pathlib.Path) (tr : list event)
    (rows : list (list (SubtaskKey * cell))) :
  setup_subtask_group int_float species_inchi ntors_of run_dct file_dct
    task_type key_type (Some group_id) out_path = (tr, Ok (inr rows)) ->
  exists tasks,
    determine_task_list int_float species_inchi ntors_of run_dct file_dct
      task_type key_type "all" = Ok tasks /\
    Forall2 (fun task row => row_get (KeyStr "task") row = Some (CName (name task)))
      tasks rows /\
    ToCsv (Pathlib.div out_path (str_of_group_id group_id +:+ ".csv")) rows ∈ tr.
Proof.
  intros Hrun. unfold setup_subtask_group in Hrun.
  apply io_bind_Ok in Hrun as (t1 & tasks & t2 & Htasks & Hrun & ->).
  apply lift_Ok in Htasks as [Htasks ->].
  apply io_bind_Ok in Hrun as (t3 & [] & t4 & _ & Hrun & ->).
  apply io_bind_Ok in Hrun as (t5 & [] & t6 & _ & Hrun & ->).
  apply io_bind_Ok in Hrun as (t7 & rows' & t8 & Hloop & Hrun & ->).
  apply io_bind_Ok in Hrun as (t9 & [] & t10 & _ & Hrun & ->).
  apply io_bind_Ok in Hrun as (t11 & [] & t12 & Hcsv & Hrun & ->).
  apply io_bind_Ok in Hrun as (t13 & [] & t14 & _ & Hrun & ->).
  injection Hcsv as <-. injection Hrun as <- <-.
  exists tasks. split; [exact Htasks|]. split; [|trace_elem].
  refine (task_loop_names _ _ _ _ _ _ _ _ _ _ _ _ _ Hloop).
  apply Forall_forall. intros task Hin.
  apply determine_task_list_Ok in Htasks as (okeys & task_lines & Hkeys & _ & Hall).
  apply (Forall2_elem_of_r _ _ _ _ Hall) in Hin
    as (task_line & _ & (_ & _ & _ & _ & -> & _)).
  exact (subtask_keys_not_task run_dct key_type _ Hkeys).
Qed.

Lemma setup_subtask_group_rows_witness :
  exists tr rows,
    setup_subtask_group int_float_decimal demo_species demo_ntors
      demo_run_dct demo_file_dct "els" (Some "pes"%string) (Some (GidInt 1))
      (Pathlib.parse "subtasks") = (tr, Ok (inr rows)) /\
    Forall2 (fun task row => row_get (KeyStr "task") row = Some (CName (name task)))
      [demo_pes_task] rows.
Proof.
  pose (run := setup_subtask_group int_float_decimal demo_species demo_ntors
                 demo_run_dct demo_file_dct "els" (Some "pes"%string)
                 (Some (GidInt 1)) (Pathlib.parse "subtasks")).
  pose (rows := match run.2 with Ok (inr r) => r | _ => [] end).
  assert (Hrun : run = (run.1, Ok (inr rows))) by (vm_compute; reflexivity).
  destruct (setup_subtask_group_rows _ _ _ _ _ _ _ _ _ _ _ Hrun)
    as (tasks & Htasks & Hrows & _).
  rewrite demo_pes_task_resolved in Htasks. injection Htasks as <-.
  exists run.1, rows. split; [exact Hrun|exact Hrows].
Defined.




Lemma od_set_elem_new {V} (k : string) (v : V) (d : list (string * V)) :
  (k, v) ∈ od_set k v d.
Proof.
  induction d as [|[k' v'] d IH]; simpl; [apply list_elem_of_here|].
  destruct (String.eqb k k'); [apply list_elem_of_here|].
  apply list_elem_of_further, IH.
Qed.

Lemma od_set_elem_other {V} (k k' : string) (v v' : V) (d : list (string * V)) :
  (k', v') ∈ d -> k' <> k -> (k', v') ∈ od_set k v d.
Proof.
  intros Hin Hne. induction d as [|[k0 v0] d IH]; [inversion Hin|].
  simpl. apply elem_of_cons in Hin as [[= <- <-]|Hin].
  - destruct (String.eqb_spec k k') as [->|_]; [congruence|apply list_elem_of_here].
  - destruct (String.eqb k k0);
      apply list_elem_of_further; [|apply IH]; assumption.
Qed.

(** The files written for the subtasks of one task. *)
Lemma subtask_loop_files (task_path : Pathlib.Path)
    (task_run_dct : gmap string string) (file_dct : list (string * string))
    (key_type : option string) (all_key : string) (keys : list SubtaskKey) :
  forall row0 tr row,
    subtask_loop task_path task_run_dct file_dct key_type all_key keys row0
    = (tr, Ok row) ->
    forall key, key ∈ keys ->
      exists dir subtask_run_dct,
        _subtask_directory key = Ok dir /\
        narrowed task_run_dct key_type all_key key subtask_run_dct /\
        let inp_dir := Pathlib.div (Pathlib.div task_path dir) "inp" in
        Mkdir inp_dir false ∈ tr /\
        WriteText (Pathlib.div inp_dir "run.dat") (form_run_dat subtask_run_dct) ∈ tr /\
        forall name contents,
          (name, contents) ∈ file_dct -> name <> "run.dat"%string ->
          WriteText (Pathlib.div inp_dir name) contents ∈ tr.
Proof.
  induction keys as [|key0 keys IH]; intros row0 tr row Hrun key Hin.
  - inversion Hin.
  - cbn [subtask_loop] in Hrun.
    apply io_bind_Ok in Hrun as (t1 & dir0 & t2 & Hdir & Hrun & ->).
    apply lift_Ok in Hdir as [Hdir ->].
    apply io_bind_Ok in Hrun as (t3 & [] & t4 & Hmk & Hrun & ->).
    injection Hmk as <-.
    apply io_bind_Ok in Hrun as (t5 & srd & t6 & Hsrd & Hrun & ->).
    apply lift_Ok in Hsrd as [Hsrd ->].
    apply io_bind_Ok in Hrun as (t7 & [] & t8 & Hwr & Hrun & ->).
    destruct (decide (key = key0)) as [->|Hne].
    + exists dir0, srd. split; [exact Hdir|]. split.
      { destruct (decide (key0 = KeyStr all_key)) as [Heq|Hneq].
        - left. injection Hsrd as <-. split; [exact Heq|reflexivity].
        - right. split; [exact Hneq|].
          apply rbind_Ok in Hsrd as (block & Hblock & Hsrd).
          injection Hsrd as <-. eauto. }
      unfold write_input_files in Hwr. injection Hwr as <-.
      cbn zeta. split; [trace_elem|].
      set (write := fun kv : string * string =>
             WriteText (Pathlib.div (Pathlib.div (Pathlib.div task_path dir0) "inp") kv.1)
               kv.2).
      split.
      * assert (Hw : write ("run.dat"%string, form_run_dat srd)
                     ∈ map write (od_set "run.dat" (form_run_dat srd) file_dct))
          by (apply list_elem_of_fmap_2, od_set_elem_new).
        unfold write at 1 in Hw. cbn [fst snd] in Hw. trace_elem.
      * intros name contents Hfile Hname.
        assert (Hw : write (name, contents)
                     ∈ map write (od_set "run.dat" (form_run_dat srd) file_dct))
          by (apply list_elem_of_fmap_2, od_set_elem_other; assumption).
        unfold write at 1 in Hw. cbn [fst snd] in Hw. trace_elem.
    + apply elem_of_cons in Hin as [->|Hin]; [congruence|].
      destruct (IH _ _ _ Hrun key Hin)
        as (dir & srd' & Hd & Hn & Hmkdir & Hrd & Hfiles).
      exists dir, srd'. split; [exact Hd|]. split; [exact Hn|].
      cbn zeta in *. split; [trace_elem|]. split; [trace_elem|].
      intros name contents Hfile Hname.
      specialize (Hfiles name contents Hfile Hname). trace_elem.
Qed.

Lemma task_loop_files (run_dct : gmap string string)
    (file_dct : list (string * string)) (task_type : string)
    (key_type : option string) (all_key : string) (block_keys : list string)
    (group_id : string) (out_path : Pathlib.Path) (tasks : list Task) :
  forall task_key tr rows,
    task_loop run_dct file_dct task_type key_type all_key block_keys
      group_id out_path task_key tasks = (tr, Ok rows) ->
    forall i task key,
      tasks !! i = Some task -> key ∈ subtask_keys task ->
      exists dir subtask_run_dct,
        _subtask_directory key = Ok dir /\
        narrowed (<[task_type := line task]>
                    (filter (fun kv : string * string => kv.1 ∈ block_keys) run_dct))
          key_type all_key key subtask_run_dct /\
        let inp_dir :=
          Pathlib.div
            (Pathlib.div
               (task_directory out_path group_id (task_key + i) (name task)) dir)
            "inp" in
        Mkdir inp_dir false ∈ tr /\
        WriteText (Pathlib.div inp_dir "run.dat") (form_run_dat subtask_run_dct) ∈ tr /\
        forall name contents,
          (name, contents) ∈ file_dct -> name <> "run.dat"%string ->
          WriteText (Pathlib.div inp_dir name) contents ∈ tr.
Proof.
  induction tasks as [|task0 tasks IH]; intros task_key tr rows Hrun i task key Hi Hkey.
  - inversion Hi.
  - cbn [task_loop] in Hrun.
    apply io_bind_Ok in Hrun as (t1 & [] & t2 & Hpr & Hrun & ->).
    injection Hpr as <-.
    apply io_bind_Ok in Hrun as (t3 & row0 & t4 & Hsub & Hrun & ->).
    apply io_bind_Ok in Hrun as (t5 & rows' & t6 & Hrest & Hrun & ->).
    injection Hrun as <- <-.
    destruct i as [|i]; simpl in Hi.
    + injection Hi as ->.
      destruct (subtask_loop_files _ _ _ _ _ _ _ _ _ Hsub key Hkey)
        as (dir & srd & Hd & Hn & Hmk & Hrd & Hfiles).
      exists dir, srd. rewrite Nat.add_0_r. split; [exact Hd|]. split; [exact Hn|].
      cbn zeta in *. split; [trace_elem|]. split; [trace_elem|].
      intros name contents Hfile Hname.
      specialize (Hfiles name contents Hfile Hname). trace_elem.
    + destruct (IH _ _ _ Hrest i task key Hi Hkey)
        as (dir & srd & Hd & Hn & Hmk & Hrd & Hfiles).
      exists dir, srd.
      replace (task_key + S i)%nat with (S task_key + i)%nat by lia.
      split; [exact Hd|]. split; [exact Hn|].
      cbn zeta in *. split; [trace_elem|]. split; [trace_elem|].
      intros name contents Hfile Hname.
      specialize (Hfiles name contents Hfile Hname). trace_elem.
Qed.

(** X14: for every task and every one of its subtask keys,
    [setup_subtask_group] makes the directory [inp] under the directory of
    the subtask and writes into it every input file other than run.dat with
    its contents unchanged, and a run.dat file formed from the blocks kept
    for the group, in which the block of the task type is the line of this
    task alone and the block of the key type is narrowed to this key (it is
    left as it is for the key that stands for all). *)
Theorem setup_subtask_group_files
    (int_float : string -> result Z)
    (species_inchi : option string -> result (list string))
    (ntors_of : string -> nat) (run_dct : gmap string string)
    (file_dct : list (string * string)) (task_type : string)
    (key_type : option string) (group_id : group_id_t)
    (out_path : Pathlib.Path) (tr : list event)
    (rows : list (list (SubtaskKey * cell))) :
  setup_subtask_group int_float species_inchi ntors_of run_dct file_dct
    task_type key_type (Some group_id) out_path = (tr, Ok (inr rows)) ->
  exists tasks,
    determine_task_list int_float species_inchi ntors_of run_dct file_dct
      task_type key_type "all" = Ok tasks /\
    forall (i : nat) task key,
      tasks !! i = Some task -> key ∈ subtask_keys task ->
      exists dir subtask_run_dct,
        _subtask_directory key = Ok dir /\
        narrowed
          (<[task_type := line task]>
             (filter (fun kv : string * string =>
                        kv.1 ∈ ("input" :: match key_type with
                                           | None => ["pes"; "spc"]
                                           | Some k => [k]
                                           end)%string) run_dct))
          key_type "all" key subtask_run_dct /\
        let inp_dir :=
          Pathlib.div
            (Pathlib.div
               (task_directory out_path (str_of_group_id group_id) i (name task))
               dir)
            "inp" in
        Mkdir inp_dir false ∈ tr /\
        WriteText (Pathlib.div inp_dir "run.dat") (form_run_dat subtask_run_dct) ∈ tr /\
        forall name contents,
          (name, contents) ∈ file_dct -> name <> "run.dat"%string ->
          WriteText (Pathlib.div inp_dir name) contents ∈ tr.
Proof.
  intros Hrun. unfold setup_subtask_group in Hrun.
  apply io_bind_Ok in Hrun as (t1 & tasks & t2 & Htasks & Hrun & ->).
  apply lift_Ok in Htasks as [Htasks ->].
  apply io_bind_Ok in Hrun as (t3 & [] & t4 & _ & Hrun & ->).
  apply io_bind_Ok in Hrun as (t5 & [] & t6 & _ & Hrun & ->).
  apply io_bind_Ok in Hrun as (t7 & rows' & t8 & Hloop & Hrun & ->).
  apply io_bind_Ok in Hrun as (t9 & [] & t10 & _ & Hrun & ->).
  apply io_bind_Ok in Hrun as (t11 & [] & t12 & _ & Hrun & ->).
  apply io_bind_Ok in Hrun as (t13 & [] & t14 & _ & Hrun & ->).
  injection Hrun as <- <-.
  exists tasks. split; [exact Htasks|].
  intros i task key Hi Hkey.
  destruct (task_loop_files _ _ _ _ _ _ _ _ _ _ _ _ Hloop i task key Hi Hkey)
    as (dir & srd & Hd & Hn & Hmk & Hrd & Hfiles).
  exists dir, srd. split; [exact Hd|]. split; [exact Hn|].
  cbn zeta in *. cbn [Nat.add] in *.
  split; [trace_elem|]. split; [trace_elem|].
  intros name contents Hfile Hname.
  specialize (Hfiles name contents Hfile Hname). trace_elem.
Qed.

Lemma setup_subtask_group_files_witness :
  WriteText
    (Pathlib.parse "subtasks/0_01_conf_samp/02/inp/theory.dat") demo_theory_dat
  ∈ (setup_subtask_group int_float_decimal demo_species demo_ntors
       demo_run_dct demo_file_dct "els" (Some "spc"%string) (Some (GidInt 0))
       (Pathlib.parse "subtasks")).1.
Proof.
  pose (run := setup_subtask_group int_float_decimal demo_species demo_ntors
                 demo_run_dct demo_file_dct "els" (Some "spc"%string)
                 (Some (GidInt 0)) (Pathlib.parse "subtasks")).
  pose (rows := match run.2 with Ok (inr r) => r | _ => [] end).
  assert (Hrun : run = (run.1, Ok (inr rows))) by (vm_compute; reflexivity).
  destruct (setup_subtask_group_files _ _ _ _ _ _ _ _ _ _ _ Hrun)
    as (tasks & Htasks & Hfiles).
  rewrite demo_spc_tasks_resolved in Htasks. injection Htasks as <-.
  destruct (Hfiles 1%nat _ (KeyInt 2) eq_refl)
    as (dir & srd & Hdir & _ & _ & _ & Hcopy).
  { vm_compute. apply list_elem_of_further, list_elem_of_here. }
  injection Hdir as <-.
  apply (Hcopy "theory.dat"%string demo_theory_dat); [|discriminate].
  apply list_elem_of_further, list_elem_of_here.
Defined.

(** ** Comments *)

Lemma code_lf_not_hash (c : ascii) :
  (Py.code c =? 10)%nat = true -> Ascii.eqb "#" c = false.
Proof.
  intros H. apply Nat.eqb_eq in H. unfold Py.code in H.
  rewrite <- (ascii_nat_embedding c), H. reflexivity.
Qed.

Lemma without_comments_go_no_hash (s : string) (in_comment : bool) :
  contains "#" (without_comments_go s in_comment) = false.
Proof.
  revert in_comment. induction s as [|c s IH]; intros in_comment; [reflexivity|].
  cbn [without_comments_go].
  destruct (Py.code c =? 10)%nat eqn:Hlf.
  - cbn [contains]. rewrite (code_lf_not_hash c Hlf). apply IH.
  - destruct in_comment; [apply IH|].
    destruct (Ascii.eqb c "#") eqn:Hc; [apply IH|].
    cbn [contains]. rewrite Ascii.eqb_sym, Hc. apply IH.
Qed.

Lemma without_comments_go_id (s : string) :
  contains "#" s = false -> without_comments_go s false = s.
Proof.
  induction s as [|c s IH]; [reflexivity|].
  cbn [contains without_comments_go]. intros H.
  apply orb_false_iff in H as [Hc Hs]. rewrite Ascii.eqb_sym in Hc.
  rewrite Hc, (IH Hs). destruct (Py.code c =? 10)%nat; reflexivity.
Qed.

(** X15: [without_comments] leaves no [#] in the text, so removing the
    comments a second time changes nothing; a text without [#] is returned
    as it is. *)
Theorem without_comments_idempotent (inp : string) :
  contains "#" (without_comments inp) = false /\
  without_comments (without_comments inp) = without_comments inp /\
  (contains "#" inp = false -> without_comments inp = inp).
Proof.
  unfold without_comments. split; [apply without_comments_go_no_hash|].
  split; [apply without_comments_go_id, without_comments_go_no_hash|].
  apply without_comments_go_id.
Qed.

Lemma without_comments_idempotent_witness :
  without_comments "spc init_geom runlvl=lvl1" = "spc init_geom runlvl=lvl1"%string.
Proof.
  apply (proj2 (proj2 (without_comments_idempotent "spc init_geom runlvl=lvl1"))).
  reflexivity.
Defined.

(** ** The sample count, again *)

(** X16: with [a >= 1], [b >= 0], [c >= 1] and [d >= 1] the sample count
    lies between 1 and [max(1, d)], and it does not decrease when the
    number of torsions grows. *)
Theorem sample_count_monotone (a b c d : Z) (t1 t2 : nat) :
  1 <= a -> 0 <= b -> 1 <= c -> 1 <= d -> (t1 <= t2)%nat ->
  1 <= sample_count t1 a b c d /\
  sample_count t1 a b c d <= sample_count t2 a b c d /\
  sample_count t2 a b c d <= Z.max 1 d.
Proof.
  intros Ha Hb Hc Hd Ht. unfold sample_count.
  assert (Hpow : forall t : nat, 1 <= c ^ Z.of_nat t).
  { intros t. apply Z.lt_pred_le. apply Z.pow_pos_nonneg; lia. }
  assert (Hmono : c ^ Z.of_nat t1 <= c ^ Z.of_nat t2)
    by (apply Z.pow_le_mono_r; lia).
  pose proof (Hpow t1). pose proof (Hpow t2).
  destruct (Nat.eqb_spec t1 0), (Nat.eqb_spec t2 0); try lia; nia.
Qed.

Lemma sample_count_monotone_witness :
  1 <= sample_count 2 12 1 3 50 /\
  sample_count 2 12 1 3 50 <= sample_count 5 12 1 3 50 /\
  sample_count 5 12 1 3 50 <= Z.max 1 50.
Proof. apply sample_count_monotone; lia. Defined.

(** ** Running the subtasks *)

Lemma replicate_subtasks_Ok (row : gmap string string)
    (keys : list SubtaskKey) (nworkers_lst : list Z) :
  forall paths0 logs0 paths logs,
    replicate_subtasks row keys nworkers_lst paths0 logs0 = Ok (paths, logs) ->
    length keys = length nworkers_lst /\
    paths = paths0
            ++ concat (zip_with (fun key n => repeat (row !! str_of_key key) (Z.to_nat n))
                         keys nworkers_lst) /\
    logs = logs0
           ++ concat (map (fun n =>
                             map (fun i => ("out" +:+ Py.str_of_Z (Z.of_nat i)
                                              +:+ ".log")%string)
                               (seq 0 (Z.to_nat n)))
                        nworkers_lst).
Proof.
  revert nworkers_lst.
  induction keys as [|key keys IH]; intros [|n nws] paths0 logs0 paths logs H;
    try discriminate H.
  - injection H as <- <-. rewrite !app_nil_r. repeat split.
  - cbn [replicate_subtasks] in H. apply IH in H as (Hlen & -> & ->).
    cbn [length zip_with map concat]. rewrite <- !app_assoc.
    repeat split. rewrite Hlen. reflexivity.
Qed.

Lemma replicate_subtasks_mismatch (row : gmap string string)
    (keys : list SubtaskKey) (nworkers_lst : list Z) :
  forall paths0 logs0,
    length keys <> length nworkers_lst ->
    replicate_subtasks row keys nworkers_lst paths0 logs0 = Raise ValueError.
Proof.
  revert nworkers_lst.
  induction keys as [|key keys IH]; intros [|n nws] paths0 logs0 Hlen;
    try reflexivity.
  - contradiction.
  - cbn [replicate_subtasks]. apply IH. simpl in Hlen. lia.
Qed.

(** X17: a task whose numbers of subtask keys and of worker counts differ
    cannot be run: the loop over the two lists, zipped strictly, raises
    [ValueError], and no run script is started for the row. *)
Theorem adhoc_run_args_mismatch (RUN_SCRIPT work_path : string)
    (nodes activation_hook : option string) (tasks : list Task)
    (task_key : nat) (row : gmap string string) (task : Task) :
  tasks !! task_key = Some task ->
  row !! "task" = Some (name task) ->
  length (subtask_keys task) <> length (subtask_nworkers task) ->
  adhoc_run_args RUN_SCRIPT work_path nodes activation_hook tasks task_key row
  = Raise ValueError.
Proof.
  intros Htask Hname Hlen. unfold adhoc_run_args.
  rewrite Htask, Hname. simpl. rewrite String.eqb_refl.
  rewrite replicate_subtasks_mismatch by exact Hlen. reflexivity.
Qed.

Lemma adhoc_run_args_mismatch_witness :
  adhoc_run_args "run_adhoc.sh" "/home/user" (Some "node1,node2"%string) None
    demo_spc_tasks 1
    (<["task" := "conf_samp"%string]>
       (<["1" := "subtasks/0_01_conf_samp/01"%string]>
          (<["2" := "subtasks/0_01_conf_samp/02"%string]> ∅)))
  = Raise ValueError.
Proof.
  apply (adhoc_run_args_mismatch _ _ _ _ _ _ _
           (mkTask "conf_samp" "spc conf_samp runlvl=lvl1 cnf_range=n50"
              (Some 4) (Some 8) [KeyInt 1; KeyInt 2] [1; 20; 1]));
    [reflexivity | vm_compute; reflexivity | simpl; lia].
Defined.

Lemma replicate_subtasks_total (row : gmap string string)
    (keys : list SubtaskKey) (nworkers_lst : list Z) :
  length keys = length nworkers_lst ->
  exists paths logs,
    replicate_subtasks row keys nworkers_lst [] [] = Ok (paths, logs).
Proof.
  generalize (@nil (option string)) (@nil string). revert nworkers_lst.
  induction keys as [|key keys IH]; intros [|n nws] paths0 logs0 Hlen;
    try discriminate Hlen.
  - eexists _, _. reflexivity.
  - cbn [replicate_subtasks]. apply IH. simpl in Hlen. lia.
Qed.

Lemma rmap_of_option_None {A} (e : exn) (l : list (option A)) :
  None ∈ l -> rmap (of_option e) l = Raise e.
Proof.
  induction l as [|x l IH]; intros Hin.
  - apply elem_of_nil in Hin as [].
  - destruct x as [x|]; [|reflexivity].
    apply elem_of_cons in Hin as [Hx|Hin]; [discriminate Hx|].
    simpl. rewrite (IH Hin). reflexivity.
Qed.


(** X18: when a subtask key with at least one worker has no column in the
    row of its task (the key is looked up by its printed form), the paths
    cannot be joined: a [TypeError] is raised and no run script is started
    for the row. *)
Theorem adhoc_run_args_missing_column (RUN_SCRIPT work_path : string)
    (nodes activation_hook : option string) (tasks : list Task)
    (task_key : nat) (row : gmap string string) (task : Task)
    (j : nat) (key : SubtaskKey) (nworkers : Z) :
  tasks !! task_key = Some task ->
  row !! "task" = Some (name task) ->
  length (subtask_keys task) = length (subtask_nworkers task) ->
  subtask_keys task !! j = Some key ->
  subtask_nworkers task !! j = Some nworkers ->
  1 <= nworkers ->
  row !! str_of_key key = None ->
  adhoc_run_args RUN_SCRIPT work_path nodes activation_hook tasks task_key row
  = Raise TypeError.
Proof.
  intros Htask Hname Hlen Hkey Hn Hpos Hrow. unfold adhoc_run_args.
  rewrite Htask, Hname. simpl. rewrite String.eqb_refl.
  destruct (replicate_subtasks_total row _ _ Hlen) as (paths & logs & Hrep).
  rewrite Hrep. simpl.
  apply replicate_subtasks_Ok in Hrep as (_ & -> & _). simpl.
  rewrite rmap_of_option_None; [reflexivity|].
  apply list_elem_of_In, in_concat.
  exists (repeat (row !! str_of_key key) (Z.to_nat nworkers)). split.
  - apply list_elem_of_In, list_elem_of_lookup. exists j.
    rewrite lookup_zip_with, Hkey. simpl. rewrite Hn. reflexivity.
  - rewrite Hrow. destruct (Z.to_nat nworkers) eqn:Hz; [lia|]. left. reflexivity.
Qed.

Lemma adhoc_run_args_missing_column_witness :
  adhoc_run_args "run_adhoc.sh" "/home/user" None None
    [read_back_task demo_pes_task] 0
    (<["task" := "conf_samp"%string]>
       (<[str_of_key (KeyTuple [1; 1]) := "subtasks/0_00_conf_samp/01_01"%string]>
          (<[str_of_key (KeyTuple [1; 2]) := "subtasks/0_00_conf_samp/01_02"%string]> ∅)))
  = Raise TypeError.
Proof.
  apply (adhoc_run_args_missing_column _ _ _ _ _ _ _
           (read_back_task demo_pes_task) 0%nat (KeyList [1; 1]) 1);
    [reflexivity | vm_compute; reflexivity | reflexivity | reflexivity
    | reflexivity | lia | vm_compute; reflexivity].
Defined.



(** ** The names of the subtask directories *)

Lemma digits_val_uint_acc (d : Decimal.uint) (acc : positive) :
  Py.digits_val (NilEmpty.string_of_uint d) (Z.pos acc)
  = Z.pos (Pos.of_uint_acc d acc).
Proof.
  revert acc. induction d; intros acc; cbn [NilEmpty.string_of_uint Py.digits_val Pos.of_uint_acc];
    [reflexivity|..]; rewrite <- IHd; f_equal;
    match goal with |- context [Py.digit_val ?c] =>
      let v := eval vm_compute in (Py.digit_val c) in
      change (Py.digit_val c) with v
    end; lia.
Qed.

Lemma digits_val_uint (d : Decimal.uint) :
  Py.digits_val (NilEmpty.string_of_uint d) 0 = Z.of_N (Pos.of_uint d).
Proof.
  induction d; cbn [NilEmpty.string_of_uint Py.digits_val Pos.of_uint];
    [reflexivity|exact IHd|..];
    match goal with |- context [Pos.of_uint_acc d ?p] =>
      exact (digits_val_uint_acc d p)
    end.
Qed.

Lemma all_digits_uint (d : Decimal.uint) :
  all_digits (NilEmpty.string_of_uint d) = true.
Proof. induction d; simpl; auto. Qed.

Lemma str_of_Z_uint (n : Z) :
  0 <= n -> exists d, Py.str_of_Z n = NilEmpty.string_of_uint d /\ Z.of_N (Pos.of_uint d) = n.
Proof.
  intros Hn. destruct n as [|p|p]; [exists (Decimal.D0 Decimal.Nil); split; reflexivity| |lia].
  exists (Pos.to_uint p). split.
  - unfold Py.str_of_Z, NilZero.string_of_uint.
    pose proof (DecimalPos.Unsigned.to_uint_nonnil p). destruct (Pos.to_uint p); congruence.
  - rewrite DecimalPos.Unsigned.of_to. reflexivity.
Qed.

Lemma id_str_digits (n : Z) :
  0 <= n -> all_digits (id_str_ n) = true /\ Py.digits_val (id_str_ n) 0 = n.
Proof.
  intros Hn. destruct (str_of_Z_uint n Hn) as (d & Hd & Hv).
  unfold id_str_. rewrite Hd.
  pose proof (all_digits_uint d). pose proof (digits_val_uint d).
  destruct (_ <? _)%nat; [|split; congruence].
  split; [exact H|]. rewrite <- Hv, <- H0. reflexivity.
Qed.

Lemma append_underscore_inj (s1 s2 t1 t2 : string) :
  all_digits s1 = true -> all_digits s2 = true ->
  (s1 +:+ String "_" t1 = s2 +:+ String "_" t2)%string -> s1 = s2 /\ t1 = t2.
Proof.
  revert s2. induction s1 as [|c s1 IH]; intros [|c2 s2] H1 H2 H.
  - injection H as ->. split; reflexivity.
  - injection H as <- _. discriminate H2.
  - injection H as -> _. discriminate H1.
  - injection H as -> H. simpl in H1, H2.
    apply andb_true_iff in H1 as [_ H1]. apply andb_true_iff in H2 as [_ H2].
    destruct (IH s2 H1 H2 H) as [-> ->]. split; reflexivity.
Qed.

Lemma all_digits_no_underscore (s t u : string) :
  all_digits s = true -> s <> (t +:+ String "_" u)%string.
Proof.
  revert s. induction t as [|c t IH]; intros [|c' s] Hs H; try discriminate H.
  - injection H as -> _. discriminate Hs.
  - injection H as -> H. simpl in Hs. apply andb_true_iff in Hs as [_ Hs].
    exact (IH s Hs H).
Qed.

Lemma subtask_directory_inj (key1 key2 : SubtaskKey) (dir : string) :
  index_key key1 -> index_key key2 ->
  _subtask_directory key1 = Ok dir -> _subtask_directory key2 = Ok dir ->
  key1 = key2.
Proof.
  intros H1 H2 E1 E2.
  destruct key1 as [s1|n1|l1|l1]; try contradiction;
  destruct key2 as [s2|n2|l2|l2]; try contradiction.
  - simpl in *. injection E1 as <-. injection E2 as E2.
    destruct (id_str_digits n1 H1) as [_ V1], (id_str_digits n2 H2) as [_ V2].
    rewrite E2 in V2. f_equal. congruence.
  - destruct l2 as [|p [|c [|]]]; try contradiction. destruct H2 as [Hp Hc].
    simpl in E1, E2. injection E1 as <-. injection E2 as E2.
    destruct (id_str_digits n1 H1) as [D1 _].
    exfalso. exact (all_digits_no_underscore _ _ _ D1 (eq_sym E2)).
  - destruct l1 as [|p [|c [|]]]; try contradiction. destruct H1 as [Hp Hc].
    simpl in E1, E2. injection E1 as <-. injection E2 as E2.
    destruct (id_str_digits n2 H2) as [D2 _].
    exfalso. exact (all_digits_no_underscore _ _ _ D2 E2).
  - destruct l1 as [|p1 [|c1 [|]]]; try contradiction. destruct H1 as [Hp1 Hc1].
    destruct l2 as [|p2 [|c2 [|]]]; try contradiction. destruct H2 as [Hp2 Hc2].
    simpl in E1, E2. injection E1 as <-. injection E2 as E2.
    destruct (id_str_digits p1 Hp1) as [Dp1 Vp1], (id_str_digits p2 Hp2) as [Dp2 Vp2].
    destruct (id_str_digits c1 Hc1) as [_ Vc1], (id_str_digits c2 Hc2) as [_ Vc2].
    apply append_underscore_inj in E2 as [Ep Ec]; [|assumption..].
    rewrite Ep in Vp2. rewrite Ec in Vc2. repeat f_equal; congruence.
Qed.

(** X20: two keys of a block (indices, or pairs of indices, none negative)
    that get the same subtask directory name are the same key: different
    subtasks of a task never share a directory. *)
Theorem subtask_directory_injective (key1 key2 : SubtaskKey) (dir : string) :
  index_key key1 -> index_key key2 ->
  _subtask_directory key1 = Ok dir -> _subtask_directory key2 = Ok dir ->
  key1 = key2.
Proof. apply subtask_directory_inj. Qed.

Lemma subtask_directory_injective_witness :
  KeyTuple [1; 12] = KeyTuple [1; 12].
Proof.
  apply (subtask_directory_injective (KeyTuple [1; 12]) (KeyTuple [1; 12]) "01_12");
    [simpl; lia | simpl; lia | reflexivity | reflexivity].
Defined.

(** ** Task names *)

Lemma has_space_of_list (l : list ascii) :
  has_space (string_of_list_ascii l) = existsb Py.isspace l.
Proof. induction l as [|c l IH]; simpl; congruence. Qed.

Lemma existsb_rev_eq {A} (f : A -> bool) (l : list A) :
  existsb f (rev l) = existsb f l.
Proof.
  induction l as [|a l IH]; [reflexivity|].
  cbn [rev]. rewrite existsb_app, IH. simpl. rewrite orb_false_r. apply orb_comm.
Qed.

Lemma split_go_tokens (s : string) :
  forall cur : list ascii,
    existsb Py.isspace cur = false ->
    Forall (fun t => t <> ""%string /\ has_space t = false) (Py.split_go s cur).
Proof.
  assert (Hflush : forall (cur : list ascii) (rest : list string),
            existsb Py.isspace cur = false ->
            Forall (fun t => t <> ""%string /\ has_space t = false) rest ->
            Forall (fun t => t <> ""%string /\ has_space t = false)
              match cur with
              | [] => rest
              | _ :: _ => string_of_list_ascii (rev cur) :: rest
              end).
  { intros [|c cur] rest Hcur Hrest; [exact Hrest|].
    apply Forall_cons_2; [|exact Hrest]. split.
    - intros H. apply (f_equal list_ascii_of_string) in H.
      rewrite list_ascii_of_string_of_list_ascii in H.
      apply (f_equal (@length ascii)) in H. rewrite length_rev in H. discriminate H.
    - rewrite has_space_of_list, existsb_rev_eq. exact Hcur. }
  induction s as [|c s IH]; intros cur Hcur; cbn [Py.split_go].
  - apply Hflush; [exact Hcur|apply Forall_nil_2].
  - destruct (Py.isspace c) eqn:Hc.
    + apply Hflush; [exact Hcur|]. apply IH. reflexivity.
    + apply IH. simpl. rewrite Hc. exact Hcur.
Qed.

(** X21: the task name read from a task line is one of the words of the
    line (the second one when the first is [spc] or [ts]): it is not empty
    and has no white space in it. *)
Theorem parse_task_name_token (task_line task_name : string) :
  parse_task_name task_line = Ok task_name ->
  task_name ∈ Py.split task_line /\ task_name <> ""%string /\
  has_space task_name = false.
Proof.
  intros H.
  assert (Hin : task_name ∈ Py.split task_line).
  { unfold parse_task_name in H.
    destruct (Py.split task_line !! 0%nat) as [w|] eqn:H0; [|discriminate H].
    simpl in H. destruct (bool_decide _).
    - destruct (Py.split task_line !! 1%nat) as [w'|] eqn:H1; [|discriminate H].
      injection H as <-. apply list_elem_of_lookup. exists 1%nat. exact H1.
    - injection H as <-. apply list_elem_of_lookup. exists 0%nat. exact H0. }
  split; [exact Hin|].
  pose proof (split_go_tokens task_line [] eq_refl) as Htok.
  rewrite Forall_forall in Htok. exact (Htok task_name Hin).
Qed.

Lemma parse_task_name_token_witness :
  "conf_samp"%string ∈ Py.split "spc  conf_samp runlvl=lvl1" /\
  "conf_samp"%string <> ""%string /\ has_space "conf_samp" = false.
Proof. apply parse_task_name_token. reflexivity. Defined.

(** ** Formatting of blocks *)

Lemma append_cons (c : ascii) (s t : string) :
  (String c s +:+ t)%string = String c (s +:+ t)%string.
Proof. reflexivity. Qed.

Lemma append_empty_r (s : string) : (s +:+ "")%string = s.
Proof. induction s as [|c s IH]; [reflexivity|]. rewrite append_cons, IH. reflexivity. Qed.

Lemma string_of_list_ascii_snoc (l : list ascii) (c : ascii) (t : string) :
  (string_of_list_ascii (l ++ [c]) +:+ t)%string
  = (string_of_list_ascii l +:+ String c t)%string.
Proof.
  induction l as [|a l IH]; [reflexivity|].
  cbn [app string_of_list_ascii]. rewrite !append_cons, IH. reflexivity.
Qed.

Lemma dedent_go_length (s : string) (at_start : bool) :
  (String.length (dedent_go s at_start) <= String.length s)%nat.
Proof.
  revert at_start. induction s as [|c s IH]; intros at_start; cbn [dedent_go]; [lia|].
  destruct (at_start && Ascii.eqb c " ").
  - specialize (IH true). simpl. lia.
  - specialize (IH (Py.code c =? 10)%nat). simpl. lia.
Qed.

Lemma dedent_go_idempotent (s : string) (at_start : bool) :
  dedent_go (dedent_go s at_start) at_start = dedent_go s at_start.
Proof.
  revert at_start. induction s as [|c s IH]; intros at_start; cbn [dedent_go]; [reflexivity|].
  destruct (at_start && Ascii.eqb c " ") eqn:Hc.
  - apply andb_true_iff in Hc as [-> _]. apply IH.
  - cbn [dedent_go]. rewrite Hc, IH. reflexivity.
Qed.

Lemma dedent_go_fixed_cons (c : ascii) (s : string) (at_start : bool) :
  dedent_go (String c s) at_start = String c s ->
  at_start && Ascii.eqb c " " = false /\ dedent_go s (Py.code c =? 10)%nat = s.
Proof.
  cbn [dedent_go]. destruct (at_start && Ascii.eqb c " ").
  - intros H. apply (f_equal String.length) in H.
    pose proof (dedent_go_length s true). simpl in H. lia.
  - intros [= H]. split; [reflexivity|exact H].
Qed.

Lemma dedent_go_chars (P : ascii -> Prop) (s : string) (at_start : bool) :
  Forall P (list_ascii_of_string s) ->
  Forall P (list_ascii_of_string (dedent_go s at_start)).
Proof.
  revert at_start. induction s as [|c s IH]; intros at_start H; cbn [dedent_go]; [exact H|].
  cbn [list_ascii_of_string] in H. apply Forall_cons in H as [Hc H].
  destruct (at_start && Ascii.eqb c " "); [apply IH, H|].
  cbn [list_ascii_of_string]. apply Forall_cons_2; [exact Hc|apply IH, H].
Qed.

Lemma islinebreak_lf (c : ascii) :
  Py.islinebreak c = false -> (Py.code c =? 10)%nat = false.
Proof.
  intros H. destruct (Py.code c =? 10)%nat eqn:E; [|reflexivity].
  apply Nat.eqb_eq in E. unfold Py.code in E.
  rewrite <- (ascii_nat_embedding c), E in H. discriminate H.
Qed.

(** A line that does not start with a space is kept up to its end. *)
Lemma dedent_go_line (l : list ascii) (rest : string) (at_start : bool) :
  Forall (fun c => Py.islinebreak c = false) l ->
  (at_start = true -> hd_error l <> Some " "%char) ->
  l <> [] ->
  dedent_go (string_of_list_ascii l +:+ rest) at_start
  = (string_of_list_ascii l +:+ dedent_go rest false)%string.
Proof.
  revert at_start. induction l as [|c l IH]; intros at_start Hl Hhd Hne; [contradiction|].
  apply Forall_cons in Hl as [Hc Hl].
  cbn [string_of_list_ascii]. rewrite !append_cons. cbn [dedent_go].
  assert (Hsp : at_start && Ascii.eqb c " " = false).
  { destruct at_start; [|reflexivity]. simpl.
    destruct (Ascii.eqb_spec c " "); [|reflexivity].
    subst c. exfalso. apply Hhd; reflexivity. }
  rewrite Hsp, (islinebreak_lf c Hc). f_equal.
  destruct l as [|c' l]; [reflexivity|].
  apply IH; [exact Hl|discriminate|discriminate].
Qed.

Lemma dedent_go_flush (cur : list ascii) (blank : bool) (rest : string) :
  Forall (fun c => Py.islinebreak c = false) cur ->
  hd_error (rev cur) <> Some " "%char ->
  (cur = [] -> blank = true) ->
  dedent_go ((if blank then string_of_list_ascii (rev cur)
              else "    " +:+ string_of_list_ascii (rev cur)) +:+ rest)%string true
  = (string_of_list_ascii (rev cur)
       +:+ dedent_go rest (match cur with [] => true | _ => false end))%string.
Proof.
  intros Hcur Hhd Hblank.
  assert (Hstrip : forall s, dedent_go (("    " +:+ s) +:+ rest)%string true
                             = dedent_go (s +:+ rest)%string true) by reflexivity.
  destruct cur as [|c cur].
  - rewrite (Hblank eq_refl). reflexivity.
  - assert (Hne : rev (c :: cur) <> []).
    { intros H. apply (f_equal (@length ascii)) in H.
      rewrite length_rev in H. discriminate H. }
    assert (Hl : Forall (fun c => Py.islinebreak c = false) (rev (c :: cur))).
    { apply Forall_forall. intros x Hx.
      apply list_elem_of_In, in_rev, list_elem_of_In in Hx.
      revert x Hx. apply Forall_forall. exact Hcur. }
    destruct blank; [|rewrite Hstrip];
      apply dedent_go_line; auto.
Qed.

Lemma dedent_indent_go (t : string) :
  forall (cur : list ascii) (blank : bool),
    Forall (fun c => Py.islinebreak c = true -> Py.code c = 10%nat)
      (list_ascii_of_string t) ->
    dedent_go t (match cur with [] => true | _ => false end) = t ->
    Forall (fun c => Py.islinebreak c = false) cur ->
    hd_error (rev cur) <> Some " "%char ->
    blank = forallb Py.isspace cur ->
    dedent_go (indent_go "    " t cur blank) true
    = (string_of_list_ascii (rev cur) +:+ t)%string.
Proof.
  induction t as [|c t IH]; intros cur blank Hlf Hfix Hcur Hhd Hblank.
  - cbn [indent_go]. destruct cur as [|a cur]; [reflexivity|].
    assert (Hb : a :: cur = [] -> blank = true) by discriminate.
    pose proof (dedent_go_flush (a :: cur) blank "" Hcur Hhd Hb) as H.
    rewrite !append_empty_r in H. rewrite append_empty_r.
    destruct blank; exact H.
  - cbn [list_ascii_of_string] in Hlf. apply Forall_cons in Hlf as [Hc Hlf].
    apply dedent_go_fixed_cons in Hfix as [Hsp Hfix].
    cbn [indent_go]. destruct (Py.islinebreak c) eqn:Hlb.
    + specialize (Hc eq_refl).
      assert (H13 : (Py.code c =? 13)%nat = false) by (rewrite Hc; reflexivity).
      assert (H10 : (Py.code c =? 10)%nat = true) by (rewrite Hc; reflexivity).
      rewrite H10 in Hfix.
      assert (Hb : cur = [] -> blank = true) by (intros ->; exact Hblank).
      assert (Hgo : dedent_go
                      ((if blank then string_of_list_ascii (rev cur)
                        else "    " +:+ string_of_list_ascii (rev cur))
                       +:+ String c (indent_go "    " t [] true))%string true
                    = (string_of_list_ascii (rev cur) +:+ String c t)%string).
      { rewrite (dedent_go_flush cur blank _ Hcur Hhd Hb). f_equal.
        assert (Hc' : dedent_go (String c (indent_go "    " t [] true))
                        (match cur with [] => true | _ => false end)
                      = String c (dedent_go (indent_go "    " t [] true) true)).
        { cbn [dedent_go]. rewrite H10.
          destruct cur; [|reflexivity].
          simpl in Hsp. simpl. rewrite Hsp. reflexivity. }
        rewrite Hc'. f_equal.
        apply (IH [] true Hlf Hfix); [apply Forall_nil_2|discriminate|reflexivity]. }
      destruct t as [|c' t'].
      * exact Hgo.
      * rewrite H13. cbn [andb]. exact Hgo.
    + rewrite (islinebreak_lf c Hlb) in Hfix.
      rewrite (IH (c :: cur) (blank && Py.isspace c)); [| exact Hlf | exact Hfix | | |].
      * cbn [rev]. apply string_of_list_ascii_snoc.
      * apply Forall_cons_2; [exact Hlb|exact Hcur].
      * cbn [rev]. destruct cur as [|a cur].
        -- simpl. simpl in Hsp. destruct (Ascii.eqb_spec c " "); [discriminate Hsp|].
           congruence.
        -- destruct (rev (a :: cur)) eqn:E; [|exact Hhd].
           apply (f_equal (@length ascii)) in E. rewrite length_rev in E. discriminate E.
      * rewrite Hblank. cbn [forallb]. apply andb_comm.
Qed.

(** X22: on a text whose only line breaks are line feeds, formatting a
    block that is already formatted changes nothing. *)
Theorem format_block_idempotent (inp : string) :
  Forall (fun c => Py.islinebreak c = true -> Py.code c = 10%nat)
    (list_ascii_of_string inp) ->
  format_block (format_block inp) = format_block inp.
Proof.
  intros Hlf. unfold format_block.
  rewrite (dedent_indent_go (dedent_go inp true) [] true); try reflexivity.
  - apply dedent_go_chars, Hlf.
  - apply dedent_go_idempotent.
  - apply Forall_nil_2.
  - discriminate.
Qed.

Lemma format_block_idempotent_witness :
  format_block (format_block ("  run_prefix = ./run" +:+ Py.nl +:+ "save_prefix = ./save"))
  = format_block ("  run_prefix = ./run" +:+ Py.nl +:+ "save_prefix = ./save").
Proof.
  apply format_block_idempotent.
  apply Forall_forall. intros c Hc. apply list_elem_of_In in Hc.
  vm_compute in Hc.
  repeat (destruct Hc as [<-|Hc]; [vm_compute; first [discriminate|reflexivity]|]).
  destruct Hc.
Defined.

(** ** What the parsers of the index series return *)

Lemma yields_parse {A} (e : PP.ParserElement A) (P : A -> Prop) b s loc loc' a :
  yields e P -> PP._parse e b s loc = Some (loc', a) -> P a.
Proof. intros He H. exact (He _ _ _ _ H). Qed.

Lemma yields_action {A B} (f : A -> B) (e : PP.ParserElement A)
    (P : A -> Prop) (Q : B -> Prop) :
  yields e P -> (forall a, P a -> Q (f a)) -> yields (PP.action f e) Q.
Proof.
  intros He Hf s loc loc' b. cbn [PP.action PP.parseImpl].
  destruct (PP.parseImpl e s loc) as [[l a]|] eqn:E; [|discriminate].
  intros [= _ <-]. apply Hf. exact (He _ _ _ _ E).
Qed.

Lemma yields_enhance {A B} (f : A -> B) (e : PP.ParserElement A)
    (P : A -> Prop) (Q : B -> Prop) :
  yields e P -> (forall a, P a -> Q (f a)) -> yields (PP.enhance f e) Q.
Proof.
  intros He Hf s loc loc' b. cbn [PP.enhance PP.parseImpl].
  destruct (PP._parse e false s loc) as [[l a]|] eqn:E; [|discriminate].
  intros [= _ <-]. apply Hf. exact (yields_parse _ _ _ _ _ _ _ He E).
Qed.

Lemma yields_And {A B} (e1 : PP.ParserElement A) (e2 : PP.ParserElement B)
    (P : A -> Prop) (Q : B -> Prop) :
  yields e1 P -> yields e2 Q -> yields (PP.And e1 e2) (fun t => P t.1 /\ Q t.2).
Proof.
  intros H1 H2 s loc loc' t. cbn [PP.And PP.parseImpl].
  destruct (PP._parse e1 false s loc) as [[l1 a]|] eqn:E1; [|discriminate].
  destruct (PP._parse e2 true s l1) as [[l2 b]|] eqn:E2; [|discriminate].
  intros [= _ <-]. split; [exact (yields_parse _ _ _ _ _ _ _ H1 E1)
                          |exact (yields_parse _ _ _ _ _ _ _ H2 E2)].
Qed.

Lemma yields_Or {A} (exprs : list (PP.ParserElement A)) (P : A -> Prop) :
  Forall (fun e => yields e P) exprs -> yields (PP.Or exprs) P.
Proof.
  intros Hall s loc loc' a. cbn [PP.Or PP.parseImpl].
  generalize (if forallb PP.callPreparse exprs && forallb PP.skipWhitespace exprs
              then PP.skip_white PP.default_white s loc (String.length s) else loc).
  intros loc0. revert loc' a.
  induction Hall as [|e exprs He _ IH]; intros loc' a; cbn [PP.longest]; [discriminate|].
  destruct (PP._parse e true s loc0) as [[l1 a1]|] eqn:E1.
  - pose proof (yields_parse _ _ _ _ _ _ _ He E1) as Ha1.
    destruct (PP.longest exprs s loc0) as [[l2 a2]|].
    + destruct (l2 <=? l1)%nat; intros [= _ <-]; [exact Ha1|exact (IH _ _ eq_refl)].
    + intros [= _ <-]. exact Ha1.
  - apply IH.
Qed.

Lemma yields_many_go {A} (e : PP.ParserElement A) (P : A -> Prop) s :
  yields e P -> forall fuel loc, Forall P (PP.many_go e s loc fuel).2.
Proof.
  intros He. induction fuel as [|fuel IH]; intros loc; cbn [PP.many_go]; [apply Forall_nil_2|].
  destruct (PP._parse e true s loc) as [[l a]|] eqn:E; [|apply Forall_nil_2].
  specialize (IH l). destruct (PP.many_go e s l fuel) as [stop rest].
  apply Forall_cons_2; [exact (yields_parse _ _ _ _ _ _ _ He E)|exact IH].
Qed.

Lemma yields_ZeroOrMore {A} (e : PP.ParserElement A) (P : A -> Prop) :
  yields e P -> yields (PP.ZeroOrMore e) (Forall P).
Proof.
  intros He s loc loc' l. cbn [PP.ZeroOrMore PP.parseImpl].
  pose proof (yields_many_go e P s He (S (S (String.length s))) loc) as Hl.
  destruct (PP.many_go e s loc (S (S (String.length s)))) as [stop rest].
  intros [= _ <-]. exact Hl.
Qed.

Lemma yields_True {A} (e : PP.ParserElement A) : yields e (fun _ => True).
Proof. intros s loc loc' a _. exact I. Qed.

Lemma yields_DelimitedList {A D} (content : PP.ParserElement A)
    (delim : PP.ParserElement D) (P : A -> Prop) :
  yields content P -> yields (PP.DelimitedList content delim) (Forall P).
Proof.
  intros Hc. unfold PP.DelimitedList.
  apply (yields_enhance _ _ (fun t => P t.1 /\ Forall (fun r => True /\ P r.2) t.2)).
  - apply yields_And; [exact Hc|]. apply yields_ZeroOrMore.
    apply (yields_And _ _ (fun _ => True) P); [apply yields_True|exact Hc].
  - intros [a rest] [Ha Hrest]. apply Forall_cons_2; [exact Ha|].
    apply Forall_fmap. eapply Forall_impl; [exact Hrest|]. intros r [_ Hr]. exact Hr.
Qed.

Lemma skip_white_range (chars : ascii -> bool) (s : string) (fuel : nat) :
  forall loc i, (loc <= i < PP.skip_white chars s loc fuel)%nat ->
    exists c, String.get i s = Some c /\ chars c = true.
Proof.
  induction fuel as [|fuel IH]; intros loc i; cbn [PP.skip_white]; [lia|].
  destruct (String.get loc s) as [c|] eqn:E; [|lia].
  destruct (chars c) eqn:Hc; [|lia].
  intros Hi. destruct (decide (i = loc)) as [->|Hne]; [exists c; split; assumption|].
  apply (IH (S loc)). lia.
Qed.

Lemma substring_Forall (P : ascii -> Prop) (s : string) :
  forall loc n,
    (forall i, (loc <= i < loc + n)%nat -> exists c, String.get i s = Some c /\ P c) ->
    Forall P (list_ascii_of_string (substring loc n s)).
Proof.
  induction s as [|c s IH]; intros loc n H.
  - destruct loc, n; apply Forall_nil_2.
  - destruct loc as [|loc].
    + destruct n as [|n]; [apply Forall_nil_2|].
      cbn [substring list_ascii_of_string]. apply Forall_cons_2.
      * destruct (H 0%nat) as (c' & Hc' & HP); [lia|]. injection Hc' as <-. exact HP.
      * apply IH. intros i Hi. destruct (H (S i)) as (c' & Hc' & HP); [lia|].
        exists c'. split; assumption.
    + cbn [substring]. apply IH. intros i Hi.
      destruct (H (S i)) as (c' & Hc' & HP); [lia|]. exists c'. split; assumption.
Qed.

Lemma yields_Word (chars : ascii -> bool) :
  yields (PP.Word chars)
    (fun w => Forall (fun c => chars c = true) (list_ascii_of_string w)).
Proof.
  intros s loc loc' w. cbn [PP.Word PP.parseImpl].
  destruct (String.get loc s) as [c|] eqn:E; [|discriminate].
  destruct (chars c) eqn:Hc; [|discriminate].
  intros [= _ <-]. apply substring_Forall. intros i Hi.
  destruct (decide (i = loc)) as [->|Hne]; [exists c; split; assumption|].
  apply (skip_white_range chars s (String.length s) (S loc)). lia.
Qed.

Lemma digits_val_nonneg (w : string) :
  Forall (fun c => PP.nums c = true) (list_ascii_of_string w) ->
  forall acc, 0 <= acc -> 0 <= Py.digits_val w acc.
Proof.
  induction w as [|c w IH]; intros H acc Hacc; [exact Hacc|].
  cbn [list_ascii_of_string] in H. apply Forall_cons in H as [Hc H].
  cbn [Py.digits_val]. apply IH; [exact H|].
  unfold PP.nums, Py.isdigit in Hc. apply andb_true_iff in Hc as [Hc _].
  apply Nat.leb_le in Hc. unfold Py.digit_val. lia.
Qed.

Lemma yields_integer : yields PP.integer (fun n => 0 <= n).
Proof.
  unfold PP.integer. eapply yields_action; [apply yields_Word|].
  intros w Hw. apply digits_val_nonneg; [exact Hw|lia].
Qed.

Lemma elem_of_range_incl (start stop i : Z) :
  i ∈ range_incl start stop -> start <= i.
Proof.
  unfold range_incl. intros H. apply list_elem_of_fmap in H as (k & -> & _). lia.
Qed.

Lemma parse_index_series_nonneg_aux (inp : string) (idxs : list Z) :
  parse_index_series inp = Ok idxs -> Forall (fun i => 0 <= i) idxs.
Proof.
  unfold parse_index_series. intros H.
  apply rbind_Ok in H as (res & Hres & H). injection H as <-.
  assert (Hentries : Forall (fun r => match r with
                                      | IdxOne n => 0 <= n
                                      | IdxRange start _ => 0 <= start
                                      end) res).
  { unfold PP.parseString in Hres.
    destruct (PP._parse index_series_expr true (Py.expandtabs inp) 0)
      as [[l r]|] eqn:E; [|discriminate Hres].
    injection Hres as ->. revert E. apply yields_parse.
    unfold index_series_expr. apply yields_DelimitedList. apply yields_Or.
    apply Forall_cons_2; [|apply Forall_cons_2; [|apply Forall_nil_2]].
    - eapply yields_action; [apply yields_integer|]. intros n Hn. exact Hn.
    - apply yields_action
        with (P := fun t : Z * unit * Z => (0 <= t.1.1 /\ True) /\ True).
      + apply yields_enhance
          with (P := fun t : Z * unit * Z => (0 <= t.1.1 /\ True) /\ True).
        * apply (yields_And _ _ (fun t : Z * unit => 0 <= t.1 /\ True) (fun _ => True));
            [|apply yields_True].
          apply (yields_And _ _ (fun n => 0 <= n) (fun _ => True));
            [apply yields_integer|apply yields_True].
        * intros a Ha. exact Ha.
      + intros [[a u] b]. simpl. tauto. }
  apply Forall_forall. intros i Hi.
  apply (proj1 (elem_of_unique_everseen _ _)) in Hi.
  apply list_elem_of_In, in_concat in Hi as (l & Hl & Hi).
  apply in_map_iff in Hl as (r & <- & Hr).
  apply list_elem_of_In in Hr. rewrite Forall_forall in Hentries.
  specialize (Hentries r Hr). destruct r as [n|start stop].
  - destruct Hi as [<-|[]]. exact Hentries.
  - apply list_elem_of_In, elem_of_range_incl in Hi. lia.
Qed.

(** X23: an index series never gives a negative index. *)
Theorem parse_index_series_nonneg (inp : string) (idxs : list Z) :
  parse_index_series inp = Ok idxs -> Forall (fun i => 0 <= i) idxs.
Proof. apply parse_index_series_nonneg_aux. Qed.

Lemma parse_index_series_nonneg_witness :
  Forall (fun i => 0 <= i) [2; 1; 3; 4].
Proof.
  apply (parse_index_series_nonneg "2,2,1,3-4,3"). vm_compute. reflexivity.
Defined.

Lemma subtask_keys_index_key (run_dct : gmap string string) (ty all_key : string)
    (keys : list SubtaskKey) :
  subtask_keys_from_run_dict run_dct (Some ty) all_key = Ok (Some keys) ->
  Forall index_key keys.
Proof.
  unfold subtask_keys_from_run_dict. destruct (String.eqb ty "spc").
  - intros H. apply rbind_Ok in H as (blk & _ & H).
    apply rbind_Ok in H as (idxs & Hidxs & H). injection H as <-.
    apply Forall_fmap. apply parse_index_series_nonneg_aux in Hidxs.
    eapply Forall_impl; [exact Hidxs|]. intros i Hi. exact Hi.
  - destruct (String.eqb ty "pes"); [|discriminate].
    intros H. apply rbind_Ok in H as (blk & _ & H).
    apply rbind_Ok in H as (entries & Hentries & H).
    apply rbind_Ok in H as (ks & Hks & H). injection H as <-.
    assert (Hpes : Forall (fun res : Z * string => 0 <= res.1) entries).
    { unfold PP.parseString in Hentries.
      destruct (PP._parse pes_expr true (Py.expandtabs blk) 0)
        as [[l r]|] eqn:E; [|discriminate Hentries].
      injection Hentries as ->. revert E. apply yields_parse.
      unfold pes_expr. apply yields_DelimitedList.
      apply yields_action
        with (P := fun t : Z * unit * string => (0 <= t.1.1 /\ True) /\ True).
      - apply yields_enhance
          with (P := fun t : Z * unit * string => (0 <= t.1.1 /\ True) /\ True).
        + apply (yields_And _ _ (fun t : Z * unit => 0 <= t.1 /\ True) (fun _ => True));
            [|apply yields_True].
          apply (yields_And _ _ (fun n => 0 <= n) (fun _ => True));
            [apply yields_integer|apply yields_True].
        + intros a Ha. exact Ha.
      - intros [[a u] b]. simpl. tauto. }
    apply Forall_forall. intros key Hkey.
    apply (proj1 (elem_of_unique_everseen _ _)) in Hkey.
    apply list_elem_of_In, in_concat in Hkey as (l & Hl & Hkey).
    apply list_elem_of_In in Hl, Hkey.
    apply rmap_Ok in Hks.
    destruct (Forall2_elem_of_r _ _ _ _ Hks Hl) as (res & Hres & Hl').
    apply rbind_Ok in Hl' as (cidxs & Hcidxs & Hl'). injection Hl' as <-.
    apply list_elem_of_fmap in Hkey as (cidx & -> & Hcidx).
    apply parse_index_series_nonneg_aux in Hcidxs.
    rewrite Forall_forall in Hpes. rewrite Forall_forall in Hcidxs.
    split; [exact (Hpes res Hres)|exact (Hcidxs cidx Hcidx)].
Qed.

Lemma subtask_directories_NoDup_aux (keys : list SubtaskKey) :
  Forall index_key keys -> NoDup keys ->
  exists dirs, rmap _subtask_directory keys = Ok dirs /\ NoDup dirs.
Proof.
  induction 1 as [|key keys Hkey Hkeys IH]; intros Hnd.
  - exists []. split; [reflexivity|apply NoDup_nil_2].
  - apply NoDup_cons in Hnd as [Hnotin Hnd].
    destruct (IH Hnd) as (dirs & Hdirs & Hnd').
    assert (Hdir : exists dir, _subtask_directory key = Ok dir).
    { destruct key as [s|n|l|l]; try contradiction; eexists; reflexivity. }
    destruct Hdir as (dir & Hdir).
    exists (dir :: dirs). cbn [rmap]. rewrite Hdir, Hdirs.
    split; [reflexivity|]. apply NoDup_cons_2; [|exact Hnd'].
    intros Hin. apply rmap_Ok in Hdirs.
    destruct (Forall2_elem_of_r _ _ _ _ Hdirs Hin) as (key' & Hkey' & Hdir').
    rewrite Forall_forall in Hkeys.
    rewrite (subtask_directory_inj key key' dir Hkey (Hkeys key' Hkey') Hdir Hdir')
      in Hnotin.
    exact (Hnotin Hkey').
Qed.

(** X24: the subtask keys of a group all have a directory name, and the
    names are pairwise different: no two subtasks of a task are set up in
    the same directory. *)
Theorem subtask_directories_NoDup (run_dct : gmap string string)
    (subtask_type : option string) (all_key : string) (keys : list SubtaskKey) :
  subtask_keys_from_run_dict run_dct subtask_type all_key = Ok (Some keys) ->
  exists dirs, rmap _subtask_directory keys = Ok dirs /\ NoDup dirs.
Proof.
  intros H. destruct subtask_type as [ty|].
  - apply subtask_directories_NoDup_aux.
    + exact (subtask_keys_index_key _ _ _ _ H).
    + exact (subtask_keys_NoDup_aux _ _ _ _ H).
  - injection H as <-. exists [all_key]. split; [reflexivity|apply NoDup_singleton].
Qed.

Lemma subtask_directories_NoDup_witness :
  exists dirs, rmap _subtask_directory [KeyTuple [1; 1]; KeyTuple [1; 2]] = Ok dirs /\
               NoDup dirs.
Proof.
  apply (subtask_directories_NoDup demo_run_dct (Some "pes"%string) "all").
  vm_compute. reflexivity.
Defined.
